(** * smart-doc-qa: the browser client and the retrieval core it talks to

    The client components ([QuestionAnswer], [DocumentUpload],
    [DocumentList], [AuthProvider]) are embedded from the TypeScript
    sources.  Every event handler is a computation in a small state monad
    over the component's React state and the browser environment
    (localStorage, the axios default headers, the console and the trace of
    HTTP requests sent).  The outcome of an awaited HTTP call is an explicit
    argument of the handler.

    The backend (text extractor, vector index, answerer) is not part of the
    sources at hand; the definitions of [Module Core] follow the
    specification and are marked as such. *)

From Stdlib Require Import String Ascii ZArith NArith QArith Qcanon.
From stdpp Require Import gmap list sorting numbers.

Local Open Scope Z_scope.

(* ===================================================================== *)
(** * JavaScript strings *)
(* ===================================================================== *)

(** A JavaScript string is a sequence of UTF-16 code units. *)
Abbreviation JSString := (list N).

Module JS.

(** A string literal of the source (all literals used are ASCII). *)
Definition lit (s : string) : JSString :=
  map N_of_ascii (list_ascii_of_string s).

(** ECMAScript [WhiteSpace] and [LineTerminator] code points, the ones
    [String.prototype.trim] strips: TAB, LF, VT, FF, CR, SP, NBSP,
    U+1680, U+2000..U+200A, LS, PS, U+202F, U+205F, U+3000, U+FEFF. *)
Definition isWhiteSpace (c : N) : bool :=
  ((9 <=? c) && (c <=? 13) || (c =? 32) || (c =? 160) || (c =? 5760)
   || (8192 <=? c) && (c <=? 8202) || (c =? 8232) || (c =? 8233)
   || (c =? 8239) || (c =? 8287) || (c =? 12288) || (c =? 65279))%N.

Fixpoint trimStart (s : JSString) : JSString :=
  match s with
  | c :: s' => if isWhiteSpace c then trimStart s' else s
  | [] => []
  end.

Definition trimEnd (s : JSString) : JSString :=
  rev (trimStart (rev s)).

(** [s.trim()] *)
Definition trim (s : JSString) : JSString := trimEnd (trimStart s).

(** Truthiness of a string: every string but the empty one. *)
Definition truthy (s : JSString) : bool :=
  match s with [] => false | _ :: _ => true end.

(** A string made of white space only (the empty string included). *)
Definition whitespace_only (s : JSString) : bool := forallb isWhiteSpace s.

(** Truthiness of a [string | null] value: [null] and the empty string
    are falsy. *)
Definition truthy_opt (o : option JSString) : bool :=
  match o with Some s => truthy s | None => false end.

End JS.

(* ===================================================================== *)
(** * The HTTP interface of the backend, as the client uses it *)
(* ===================================================================== *)

(** Modelled from the spec: the error taxonomy of section 7.  The backend
    that raises these errors is not among the sources. *)
Inductive CoreError :=
| UnsupportedFormat
| ExtractionFailed
| EmbeddingProviderError
| IndexNotReady
| DocumentNotReady
| AnswerGenerationFailed.

(** What the [catch] blocks of the client receive: what an awaited axios
    call rejects with (an error payload of the endpoint, or a failure of
    the transport) and, where localStorage is written inside the [try],
    the exception of a refused write. *)
Inductive AxiosError :=
| ErrorPayload (cause : CoreError)
| NetworkError
| StorageException.

Definition AxiosResult (A : Type) : Type := AxiosError + A.

(** The file chosen in the upload form. *)
Record File := { file_name : JSString; file_content : JSString }.

(** The requests of the client, one constructor per call site:
    - [AskQuestion i q]:
      [axios.post(`http://localhost:8000/api/documents/${i}/ask_question/`, { question: q })]
    - [UploadDocument f t]:
      [axios.post('http://localhost:8000/api/documents/', formData)]
    - [ListDocuments]: [axios.get('http://localhost:8000/api/documents/')]
    - [DeleteDocument i]:
      [axios.delete(`http://localhost:8000/api/documents/${i}/`)]
    - [Login u p]: [axios.post('http://localhost:8000/auth/login/', {username, password})]
    - [Register u p e]:
      [axios.post('http://localhost:8000/auth/register/', {username, password, email})] *)
Inductive Request :=
| AskQuestion (documentId : Z) (question : JSString)
| UploadDocument (file : File) (title : JSString)
| ListDocuments
| DeleteDocument (documentId : Z)
| Login (username password : JSString)
| Register (username password email : JSString).

(* ===================================================================== *)
(** * The browser environment and the handler monad *)
(* ===================================================================== *)

(** [console.error(message, error)] *)
Record LogEntry := { log_message : JSString; log_error : AxiosError }.

Record Env := {
  localStorage : gmap JSString JSString;
  (** [axios.defaults.headers.common] *)
  headers : gmap JSString JSString;
  console : list LogEntry;
  (** the requests sent so far, oldest first *)
  network : list Request
}.

(** A handler over component state [S]: it reads and writes the current
    state and the environment. *)
Record M (S A : Type) : Type := Handler { run : S → Env → A * S * Env }.
Arguments Handler {S A} _.
Arguments run {S A} _ _ _.

Definition ret {S A} (a : A) : M S A := Handler (λ s e, (a, s, e)).

Definition bind {S A B} (c : M S A) (k : A → M S B) : M S B :=
  Handler (λ s e, match run c s e with (a, s', e') => run (k a) s' e' end).

(** The monad operations behind stdpp's [x ← c; k] and [c;; k]. *)
Global Instance handler_ret {S} : MRet (M S) := @ret S.
Global Instance handler_bind {S} : MBind (M S) := λ A B k c, bind c k.

(** A React state setter, seen from the handler. *)
Definition modify {S} (f : S → S) : M S unit := Handler (λ s e, (tt, f s, e)).

(** An effect on the environment alone. *)
Definition effect {S} (f : Env → Env) : M S unit := Handler (λ s e, (tt, s, f e)).

Definition console_error {S} (msg : string) (err : AxiosError) : M S unit :=
  effect (λ e,
    {| localStorage := localStorage e; headers := headers e;
       console := console e ++ [{| log_message := JS.lit msg; log_error := err |}];
       network := network e |}).

(** The request leaves the browser. *)
Definition axios_send {S} (req : Request) : M S unit :=
  effect (λ e,
    {| localStorage := localStorage e; headers := headers e;
       console := console e; network := network e ++ [req] |}).

Definition localStorage_getItem {S} (key : string) : M S (option JSString) :=
  Handler (λ s e, (localStorage e !! JS.lit key, s, e)).

Definition localStorage_setItem {S} (key : string) (v : JSString) : M S unit :=
  effect (λ e,
    {| localStorage := <[JS.lit key := v]> (localStorage e); headers := headers e;
       console := console e; network := network e |}).

Definition localStorage_removeItem {S} (key : string) : M S unit :=
  effect (λ e,
    {| localStorage := delete (JS.lit key) (localStorage e); headers := headers e;
       console := console e; network := network e |}).

(** [axios.defaults.headers.common[name] = v] *)
Definition headers_set {S} (name : string) (v : JSString) : M S unit :=
  effect (λ e,
    {| localStorage := localStorage e; headers := <[JS.lit name := v]> (headers e);
       console := console e; network := network e |}).

(** [delete axios.defaults.headers.common[name]] *)
Definition headers_delete {S} (name : string) : M S unit :=
  effect (λ e,
    {| localStorage := localStorage e; headers := delete (JS.lit name) (headers e);
       console := console e; network := network e |}).

(** How a call of [localStorage.setItem] ends: the entry is written, or
    the browser refuses the write (storage full or switched off) and the
    call throws. *)
Inductive StorageWrite := WriteAccepted | WriteRefused.

(** An event handler is a closure of the render it was created in: run
    from the page as displayed, it sees the current state as [render]. *)
Definition from_render {S A} (h : S → M S A) : M S A :=
  Handler (λ s e, run (h s) s e).

(** The parts of a finished run. *)
Definition result_of {S A} (r : A * S * Env) : A := r.1.1.
Definition state_of {S A} (r : A * S * Env) : S := r.1.2.
Definition env_of {S A} (r : A * S * Env) : Env := r.2.

(* ===================================================================== *)
(** * components/QuestionAnswer.tsx *)
(* ===================================================================== *)

Module QuestionAnswer.

Record Props := { documentId : Z; documentTitle : JSString }.

(** [interface QAPair]; the timestamp is the [Date] as milliseconds. *)
Record QAPair := {
  pair_question : JSString;
  pair_answer : JSString;
  pair_timestamp : Z
}.

(** The three [useState] cells of the component. *)
Record State := {
  question : JSString;
  isLoading : bool;
  qaPairs : list QAPair
}.

(** [useState(''), useState(false), useState<QAPair[]>([])]: the state of
    a component that has just been mounted. *)
Definition mount : State :=
  {| question := []; isLoading := false; qaPairs := [] |}.

Definition setQuestion (q : JSString) : M State unit :=
  modify (λ s, {| question := q; isLoading := isLoading s; qaPairs := qaPairs s |}).
Definition setIsLoading (b : bool) : M State unit :=
  modify (λ s, {| question := question s; isLoading := b; qaPairs := qaPairs s |}).
Definition setQaPairs (l : list QAPair) : M State unit :=
  modify (λ s, {| question := question s; isLoading := isLoading s; qaPairs := l |}).

(** The payload of the ask endpoint: [response.data], read at [.answer]. *)
Record AskResponse := { answer : JSString }.

(** [handleSubmit] up to its [await]: the guard, [setIsLoading(true)] and
    the request.  [render] is the state of the render whose closure the
    handler is; the result tells whether a request went out. *)
Definition handleSubmit_request (props : Props) (render : State) : M State bool :=
  if negb (JS.truthy (JS.trim (question render))) then mret false
  else
    setIsLoading true;;
    axios_send (AskQuestion (documentId props) (question render));;
    mret true.

(** [handleSubmit] from the point where the awaited call settles with
    [reply]; [now] is [new Date()]. *)
Definition handleSubmit_settle (render : State)
    (reply : AxiosResult AskResponse) (now : Z) : M State unit :=
  match reply with
  | inr data =>
      let newQAPair :=
        {| pair_question := question render;
           pair_answer := answer data;
           pair_timestamp := now |} in
      setQaPairs (newQAPair :: qaPairs render);;
      setQuestion []
  | inl error =>
      console_error "Error asking question:" error
  end;;
  setIsLoading false.

Definition handleSubmit (props : Props) (render : State)
    (reply : AxiosResult AskResponse) (now : Z) : M State unit :=
  sent ← handleSubmit_request props render;
  if (sent : bool) then handleSubmit_settle render reply now else mret tt.

(** [onChange={(e) => setQuestion(e.target.value)}] *)
Definition onChange (value : JSString) : M State unit := setQuestion value.

(** What the component renders. *)
Record Exchange := { shown_question : JSString; shown_answer : JSString; shown_time : Z }.

Record View := {
  heading_title : JSString;
  input_value : JSString;
  input_disabled : bool;
  button_disabled : bool;
  button_label : JSString;
  exchanges : list Exchange
}.

Definition render (props : Props) (s : State) : View :=
  {| heading_title := documentTitle props;
     input_value := question s;
     input_disabled := isLoading s;
     button_disabled := isLoading s || negb (JS.truthy (JS.trim (question s)));
     button_label := if isLoading s then JS.lit "Asking..." else JS.lit "Ask";
     exchanges :=
       map (λ pair, {| shown_question := pair_question pair;
                        shown_answer := pair_answer pair;
                        shown_time := pair_timestamp pair |}) (qaPairs s) |}.

(** One round at the form: the user types [asked] and submits, and the
    endpoint answers with [replied] at time [at_time]. *)
Record Round := { asked : JSString; replied : AskResponse; at_time : Z }.

Definition ask_round (props : Props) (r : Round) : M State unit :=
  onChange (asked r);;
  from_render (λ shown, handleSubmit props shown (inr (replied r)) (at_time r)).

(** Rounds one after the other, each submitted once the previous one has
    settled. *)
Fixpoint ask_rounds (props : Props) (rs : list Round) : M State unit :=
  match rs with
  | [] => mret tt
  | r :: rs' => ask_round props r;; ask_rounds props rs'
  end.

End QuestionAnswer.

(* ===================================================================== *)
(** * components/DocumentUpload.tsx *)
(* ===================================================================== *)

Module DocumentUpload.

Record State := {
  file : option File;
  title : JSString;
  uploading : bool
}.

Definition mount : State := {| file := None; title := []; uploading := false |}.

Definition setFile (f : option File) : M State unit :=
  modify (λ s, {| file := f; title := title s; uploading := uploading s |}).
Definition setTitle (t : JSString) : M State unit :=
  modify (λ s, {| file := file s; title := t; uploading := uploading s |}).
Definition setUploading (b : bool) : M State unit :=
  modify (λ s, {| file := file s; title := title s; uploading := b |}).

(** The [accept] attribute of the file input. *)
Definition accept : JSString := JS.lit ".pdf,.txt".

(** The comma-separated tokens of an [accept] attribute. *)
Fixpoint tokens_from (cur : JSString) (s : JSString) : list JSString :=
  match s with
  | [] => [rev cur]
  | c :: s' =>
      if (c =? 44)%N then rev cur :: tokens_from [] s'
      else tokens_from (c :: cur) s'
  end.

Definition accept_tokens : list JSString := tokens_from [] accept.

(** [handleSubmit]; the result tells whether [onUploadSuccess()] was
    called.  [reply] is the outcome of the awaited POST. *)
Definition handleSubmit (render : State) (reply : AxiosResult unit) : M State bool :=
  match file render with
  | Some f =>
      if negb (JS.truthy (title render)) then mret false
      else
        setUploading true;;
        axios_send (UploadDocument f (title render));;
        called ← match reply with
                 | inr _ => setFile None;; setTitle [];; mret true
                 | inl error => console_error "Upload failed:" error;; mret false
                 end;
        setUploading false;;
        mret called
  | None => mret false
  end.

(** [onChange={(e) => setTitle(e.target.value)}] *)
Definition onTitleChange (value : JSString) : M State unit := setTitle value.

(** [onChange={(e) => setFile(e.target.files?.[0] || null)}] *)
Definition onFileChange (files : option (list File)) : M State unit :=
  setFile (match files with Some (f :: _) => Some f | _ => None end).

(** What the form shows: the title field and the submit button. *)
Record View := {
  title_value : JSString;
  button_disabled : bool;
  button_label : JSString
}.

Definition render (s : State) : View :=
  {| title_value := title s;
     button_disabled :=
       uploading s
       || negb (match file s with Some _ => true | None => false end)
       || negb (JS.truthy (title s));
     button_label :=
       if uploading s then JS.lit "Uploading..." else JS.lit "Upload Document" |}.

End DocumentUpload.

(* ===================================================================== *)
(** * components/DocumentList.tsx *)
(* ===================================================================== *)

Module DocumentList.

(** [interface Document] *)
Record Document := {
  id : Z;
  title : JSString;
  file : JSString;
  uploaded_at : JSString;
  processed : bool
}.

Record State := {
  documents : list Document;
  selectedDocument : option Document;
  loading : bool
}.

Definition mount : State :=
  {| documents := []; selectedDocument := None; loading := true |}.

Definition setDocuments (l : list Document) : M State unit :=
  modify (λ s, {| documents := l; selectedDocument := selectedDocument s;
                  loading := loading s |}).
Definition setSelectedDocument (d : option Document) : M State unit :=
  modify (λ s, {| documents := documents s; selectedDocument := d;
                  loading := loading s |}).
Definition setLoading (b : bool) : M State unit :=
  modify (λ s, {| documents := documents s; selectedDocument := selectedDocument s;
                  loading := b |}).

(** [fetchDocuments], run once by the mount effect. *)
Definition fetchDocuments (reply : AxiosResult (list Document)) : M State unit :=
  axios_send ListDocuments;;
  match reply with
  | inr data => setDocuments data
  | inl error => console_error "Error fetching documents:" error
  end;;
  setLoading false.

(** [selectedDocument?.id === documentId] *)
Definition selected_is (sel : option Document) (documentId : Z) : bool :=
  match sel with
  | Some d => bool_decide (id d = documentId)
  | None => false
  end.

(** [doc => doc.id !== documentId] *)
Definition other_than (documentId : Z) (doc : Document) : Prop :=
  id doc ≠ documentId.

(** [handleDelete(documentId)], a closure of the render with state
    [render]; [confirmed] is the answer to [window.confirm] and [reply]
    the outcome of the awaited DELETE. *)
Definition handleDelete (render : State) (documentId : Z)
    (confirmed : bool) (reply : AxiosResult unit) : M State unit :=
  if confirmed then
    axios_send (DeleteDocument documentId);;
    match reply with
    | inr _ =>
        setDocuments (filter (other_than documentId) (documents render));;
        if selected_is (selectedDocument render) documentId
        then setSelectedDocument None
        else mret tt
    | inl error => console_error "Error deleting document:" error
    end
  else mret tt.

(** [onClick={() => setSelectedDocument(doc)}] on a row of the list. *)
Definition onClick (doc : Document) : M State unit :=
  setSelectedDocument (Some doc).

(** The status badge of a row. *)
Definition badge (doc : Document) : JSString :=
  if processed doc then JS.lit "Processed" else JS.lit "Processing...".

(** The right-hand column. *)
Inductive Panel :=
| QuestionAnswerPanel (props : QuestionAnswer.Props)
| ProcessingPanel (title : JSString)
| SelectPanel.

Definition panel (s : State) : Panel :=
  match selectedDocument s with
  | Some sel =>
      if processed sel
      then QuestionAnswerPanel
             {| QuestionAnswer.documentId := id sel;
                QuestionAnswer.documentTitle := title sel |}
      else ProcessingPanel (title sel)
  | None => SelectPanel
  end.

Record Row := { row_key : Z; row_title : JSString; row_badge : JSString;
                row_highlighted : bool }.

(** The loading notice, or the two columns: the rows of the list (none
    when there is no document, where the page shows an invitation to
    upload instead) and the right-hand column. *)
Inductive View :=
| LoadingView
| ListView (rows : list Row) (right : Panel).

Definition render (s : State) : View :=
  if loading s then LoadingView
  else ListView
         (map (λ doc, {| row_key := id doc; row_title := title doc;
                          row_badge := badge doc;
                          row_highlighted := selected_is (selectedDocument s) (id doc) |})
              (documents s))
         (panel s).

(** Submitting the question form of the right-hand column.  The form is
    part of the page only while the column shows the [QuestionAnswer]
    component, whose props come from the selected document. *)
Definition submitQuestion (s : State) (qa : QuestionAnswer.State)
    (reply : AxiosResult QuestionAnswer.AskResponse) (now : Z)
  : option (M QuestionAnswer.State unit) :=
  match render s with
  | ListView _ (QuestionAnswerPanel props) =>
      Some (QuestionAnswer.handleSubmit props qa reply now)
  | _ => None
  end.

End DocumentList.

(* ===================================================================== *)
(** * contexts/AuthContext.tsx *)
(* ===================================================================== *)

Module AuthContext.

Record User := { id : Z; username : JSString }.

Record State := {
  user : option User;
  token : option JSString;
  isLoading : bool
}.

Definition mount : State := {| user := None; token := None; isLoading := true |}.

Definition setUser (u : option User) : M State unit :=
  modify (λ s, {| user := u; token := token s; isLoading := isLoading s |}).
Definition setToken (t : option JSString) : M State unit :=
  modify (λ s, {| user := user s; token := t; isLoading := isLoading s |}).
Definition setIsLoading (b : bool) : M State unit :=
  modify (λ s, {| user := user s; token := token s; isLoading := b |}).

(** [`Token ${t}`] *)
Definition token_header (t : JSString) : JSString := JS.lit "Token " ++ t.

(** The mount effect of [AuthProvider]. *)
Definition initialize : M State unit :=
  savedToken ← localStorage_getItem "token";
  match savedToken with
  | Some t =>
      if JS.truthy t
      then setToken (Some t);; headers_set "Authorization" (token_header t)
      else mret tt
  | None => mret tt
  end;;
  setIsLoading false.

(** [response.data] of the login and register endpoints. *)
Record AuthResponse := { data_token : JSString; data_user_id : Z }.

(** [login]; [reply] is the outcome of the awaited POST and [write] that of
    [localStorage.setItem], which sits inside the [try] after the two
    setters: when it throws, the [catch] logs and returns false. *)
Definition login (username password : JSString)
    (reply : AxiosResult AuthResponse) (write : StorageWrite) : M State bool :=
  axios_send (Login username password);;
  match reply with
  | inr data =>
      let newToken := data_token data in
      setToken (Some newToken);;
      setUser (Some {| id := data_user_id data; username := username |});;
      match write with
      | WriteAccepted =>
          localStorage_setItem "token" newToken;;
          headers_set "Authorization" (token_header newToken);;
          mret true
      | WriteRefused =>
          console_error "Login error:" StorageException;; mret false
      end
  | inl err => console_error "Login error:" err;; mret false
  end.

(** [register], with the same two outcomes. *)
Definition register (username password email : JSString)
    (reply : AxiosResult AuthResponse) (write : StorageWrite) : M State bool :=
  axios_send (Register username password email);;
  match reply with
  | inr data =>
      let newToken := data_token data in
      setToken (Some newToken);;
      setUser (Some {| id := data_user_id data; username := username |});;
      match write with
      | WriteAccepted =>
          localStorage_setItem "token" newToken;;
          headers_set "Authorization" (token_header newToken);;
          mret true
      | WriteRefused =>
          console_error "Registration error:" StorageException;; mret false
      end
  | inl err => console_error "Registration error:" err;; mret false
  end.

Definition logout : M State unit :=
  setToken None;;
  setUser None;;
  localStorage_removeItem "token";;
  headers_delete "Authorization".

(** The operations a consumer of the context can complete. *)
Inductive Op :=
| OpLogin (username password : JSString) (reply : AxiosResult AuthResponse)
    (write : StorageWrite)
| OpRegister (username password email : JSString) (reply : AxiosResult AuthResponse)
    (write : StorageWrite)
| OpLogout.

Definition perform (op : Op) : M State unit :=
  match op with
  | OpLogin u p reply write => login u p reply write;; mret tt
  | OpRegister u p m reply write => register u p m reply write;; mret tt
  | OpLogout => logout
  end.

(** The operations in which no storage write is refused. *)
Definition writes_accepted (op : Op) : Prop :=
  match op with
  | OpLogin _ _ (inr _) WriteRefused => False
  | OpRegister _ _ _ (inr _) WriteRefused => False
  | _ => True
  end.

(** A freshly loaded page: axios carries no Authorization header yet;
    localStorage holds whatever earlier visits left. *)
Definition page_load (e : Env) : Prop :=
  headers e !! JS.lit "Authorization" = None.

(** The provider after its mount effect and any number of completed
    operations. *)
Inductive reachable : State → Env → Prop :=
| reach_initialize e0 :
    page_load e0 →
    reachable (state_of (run initialize mount e0)) (env_of (run initialize mount e0))
| reach_perform s e op :
    reachable s e →
    reachable (state_of (run (perform op) s e)) (env_of (run (perform op) s e)).

(** The Authorization header is set exactly when the context token is
    non-null and equal to the value stored under 'token', and when set it
    is 'Token <token>'. *)
Definition header_invariant (s : State) (e : Env) : Prop :=
  (is_Some (headers e !! JS.lit "Authorization")
   ↔ ∃ t, token s = Some t ∧ localStorage e !! JS.lit "token" = Some t)
  ∧ (∀ h, headers e !! JS.lit "Authorization" = Some h →
          ∃ t, token s = Some t ∧ h = JS.lit "Token " ++ t).

(** What a successful login or registration leaves behind. *)
Definition established (username : JSString) (data : AuthResponse)
    (r : bool * State * Env) (s : State) : Prop :=
  result_of r = true
  ∧ state_of r = {| user := Some {| id := data_user_id data; username := username |};
                    token := Some (data_token data);
                    isLoading := isLoading s |}
  ∧ localStorage (env_of r) !! JS.lit "token" = Some (data_token data)
  ∧ headers (env_of r) !! JS.lit "Authorization"
    = Some (JS.lit "Token " ++ data_token data).

(** What a login or registration leaves behind when the POST succeeded
    and the storage write was refused. *)
Definition half_done (username : JSString) (data : AuthResponse)
    (r : bool * State * Env) (s : State) (e : Env) : Prop :=
  result_of r = false
  ∧ state_of r = {| user := Some {| id := data_user_id data; username := username |};
                    token := Some (data_token data);
                    isLoading := isLoading s |}
  ∧ localStorage (env_of r) = localStorage e
  ∧ headers (env_of r) = headers e.

(** What a rejected login or registration leaves behind. *)
Definition untouched (r : bool * State * Env) (s : State) (e : Env) : Prop :=
  result_of r = false
  ∧ state_of r = s
  ∧ localStorage (env_of r) = localStorage e
  ∧ headers (env_of r) = headers e.

End AuthContext.

(* ===================================================================== *)
(** * app/dashboard/page.tsx *)
(* ===================================================================== *)

Module Dashboard.

Record State := { refreshKey : Z }.

(** [useState(0)] *)
Definition mount : State := {| refreshKey := 0 |}.

(** [setRefreshKey(prev => prev + 1)] *)
Definition handleUploadSuccess : M State unit :=
  modify (λ s, {| refreshKey := refreshKey s + 1 |}).

(** The effect on [token] and [isLoading]: the route pushed, if any. *)
Definition redirect (auth : AuthContext.State) : option JSString :=
  if negb (AuthContext.isLoading auth) && negb (JS.truthy_opt (AuthContext.token auth))
  then Some (JS.lit "/login")
  else None.

(** The loading notice, nothing at all, or the page: the greeting with
    [user?.username] and the document list under [key={refreshKey}]. *)
Inductive View :=
| LoadingView
| NullView
| PageView (welcome : option JSString) (listKey : Z).

Definition render (auth : AuthContext.State) (s : State) : View :=
  if AuthContext.isLoading auth then LoadingView
  else if negb (JS.truthy_opt (AuthContext.token auth)) then NullView
  else PageView (AuthContext.username <$> AuthContext.user auth) (refreshKey s).

(** The dashboard with the two components it hosts:
    [<DocumentUpload onUploadSuccess={handleUploadSuccess} />] and
    [<DocumentList key={refreshKey} />]. *)
Record Tree := {
  own : State;
  upload : DocumentUpload.State;
  list : DocumentList.State
}.

(** A child under [key={...}]: React keeps its state while the key is the
    same and mounts it anew when the key has changed. *)
Definition keyed (old new : Z) (instance : DocumentList.State) : DocumentList.State :=
  if bool_decide (old = new) then instance else DocumentList.mount.

(** Submitting the upload form of the page: the form's handler runs with
    [handleUploadSuccess] as its callback, and the list is re-keyed. *)
Definition submitUpload (reply : AxiosResult unit) : M Tree unit :=
  Handler (λ t e,
    match run (DocumentUpload.handleSubmit (upload t) reply) (upload t) e with
    | (called, upload', e') =>
        match run (if called : bool then handleUploadSuccess else mret tt) (own t) e' with
        | (_, own', e'') =>
            (tt,
             {| own := own'; upload := upload';
                list := keyed (refreshKey (own t)) (refreshKey own') (list t) |},
             e'')
        end
    end).

End Dashboard.

(* ===================================================================== *)
(** * The landing page (unnamed/part_001) *)
(* ===================================================================== *)

Module Home.

(** The effect on [token] and [isLoading]: the route pushed, if any. *)
Definition redirect (auth : AuthContext.State) : option JSString :=
  if negb (AuthContext.isLoading auth) then
    if JS.truthy_opt (AuthContext.token auth)
    then Some (JS.lit "/dashboard")
    else Some (JS.lit "/login")
  else None.

Inductive View := LoadingView | LandingView.

Definition render (auth : AuthContext.State) : View :=
  if AuthContext.isLoading auth then LoadingView else LandingView.

(** [onClick={() => router.push('/login')}] of the Get Started button. *)
Definition onGetStarted : JSString := JS.lit "/login".

End Home.

(* ===================================================================== *)
(** * The document list together with the question form it hosts *)
(* ===================================================================== *)

Module ListPage.

(** The state of [DocumentList] and, while the right-hand column shows
    the [QuestionAnswer] component, the state of that instance. *)
Record State := {
  documentList : DocumentList.State;
  questionAnswer : option QuestionAnswer.State
}.

(** The props of the [<QuestionAnswer>] element of a render, if the
    render has one. *)
Definition form_props (s : DocumentList.State) : option QuestionAnswer.Props :=
  match DocumentList.render s with
  | DocumentList.ListView _ (DocumentList.QuestionAnswerPanel props) => Some props
  | _ => None
  end.

(** What React does with the instance after a render.  The element is
    written without a [key]: an instance that is there stays, state
    included, as long as the render puts a [QuestionAnswer] in that place,
    whatever its props; one is mounted when there was none; it is
    unmounted when the render puts something else there. *)
Definition reconcile (old : option QuestionAnswer.State)
    (element : option QuestionAnswer.Props) : option QuestionAnswer.State :=
  match element with
  | Some _ =>
      Some (match old with Some instance => instance | None => QuestionAnswer.mount end)
  | None => None
  end.

(** A handler of the list, followed by the render it causes. *)
Definition in_list {A} (h : M DocumentList.State A) : M State A :=
  Handler (λ t e,
    match run h (documentList t) e with
    | (a, list', e') =>
        (a,
         {| documentList := list';
            questionAnswer := reconcile (questionAnswer t) (form_props list') |},
         e')
    end).

(** A handler of the hosted form, given the props of the current render;
    nothing happens when no form is shown. *)
Definition in_form (h : QuestionAnswer.Props → M QuestionAnswer.State unit)
  : M State unit :=
  Handler (λ t e,
    match form_props (documentList t), questionAnswer t with
    | Some props, Some instance =>
        match run (h props) instance e with
        | (_, instance', e') =>
            (tt, {| documentList := documentList t;
                    questionAnswer := Some instance' |}, e')
        end
    | _, _ => (tt, t, e)
    end).

(** Clicking a row of the list. *)
Definition select (doc : DocumentList.Document) : M State unit :=
  in_list (DocumentList.onClick doc).

(** Typing a question into the form shown and submitting it. *)
Definition ask (r : QuestionAnswer.Round) : M State unit :=
  in_form (λ props, QuestionAnswer.ask_round props r).

(** What the right-hand column shows of the form, if it shows it. *)
Definition view (t : State) : option QuestionAnswer.View :=
  match form_props (documentList t), questionAnswer t with
  | Some props, Some instance => Some (QuestionAnswer.render props instance)
  | _, _ => None
  end.

End ListPage.

(* ===================================================================== *)
(** * The retrieval core behind the endpoints *)
(* ===================================================================== *)

Module Core.

(** Modelled from the spec: the processing states of a Document
    (section 4.5); the backend that keeps them is not among the
    sources. *)
Inductive ProcessingState :=
| pending
| processing
| ready
| failed (reason : CoreError).

(** Modelled from the spec: the file types the Text Extractor tells apart
    (section 4.1). *)
Inductive FileType := PDF | PlainText | OtherType.

(** Modelled from the spec: a raw uploaded file.  [readable] is the text
    found in it, page by page for a PDF and as a whole for plain text;
    [None] stands for corrupt or unreadable input. *)
Record RawFile := {
  file_type : FileType;
  readable : option (list JSString)
}.

(** Modelled from the spec: the file type that goes with a file name
    extension. *)
Definition type_of_extension (ext : JSString) : FileType :=
  if decide (ext = JS.lit ".pdf") then PDF
  else if decide (ext = JS.lit ".txt") then PlainText
  else OtherType.

(** Modelled from the spec: [extract(file) -> sequence of text blocks]
    (section 4.1).  A PDF gives one block per page, empty pages dropped;
    plain text gives one block. *)
Definition extract (f : RawFile) : CoreError + list JSString :=
  match file_type f with
  | OtherType => inl UnsupportedFormat
  | PDF =>
      match readable f with
      | Some pages => inr (filter (λ page, page ≠ []) pages)
      | None => inl ExtractionFailed
      end
  | PlainText =>
      match readable f with
      | Some parts => inr [concat parts]
      | None => inl ExtractionFailed
      end
  end.

Section Retrieval.

(** Embedding vectors, and the similarity of two of them (cosine
    similarity in the spec; any rational-valued score here). *)
Context {Vec : Type}.
Variable similarity : Vec → Vec → Qc.

(** Modelled from the spec: a Passage (section 3). *)
Record Passage := {
  ordinal : nat;
  text : JSString;
  vector : Vec
}.

(** A query result: a passage and its similarity to the query. *)
Record Hit := { hit_passage : Passage; hit_score : Qc }.

Definition score (queryVector : Vec) (p : Passage) : Hit :=
  {| hit_passage := p; hit_score := similarity queryVector (vector p) |}.

(** Modelled from the spec: the order of results (section 4.4): higher
    similarity first, the earlier passage first among equals. *)
Definition ranks_before (a b : Hit) : Prop :=
  (hit_score b < hit_score a)%Qc
  ∨ (hit_score a = hit_score b
     ∧ (ordinal (hit_passage a) ≤ ordinal (hit_passage b))%nat).

Global Instance ranks_before_dec : RelDecision ranks_before.
Proof. intros a b. unfold ranks_before. apply _. Defined.

(** Modelled from the spec: the Vector Index, one entry per document
    that has been built, and its three operations (section 4.4).
    [query] is the exhaustive scan the spec names as the reference. *)
Definition build (index : gmap Z (list Passage)) (documentId : Z)
    (passages : list Passage) : gmap Z (list Passage) :=
  <[documentId := passages]> index.

Definition drop_index (index : gmap Z (list Passage)) (documentId : Z)
  : gmap Z (list Passage) :=
  delete documentId index.

Definition query (index : gmap Z (list Passage)) (documentId : Z)
    (queryVector : Vec) (k : nat) : CoreError + list Hit :=
  match index !! documentId with
  | None => inl IndexNotReady
  | Some passages =>
      inr (take k (merge_sort ranks_before (map (score queryVector) passages)))
  end.


(** Modelled from the spec: the persisted state of the core, one
    processing state per Document and the Vector Index. *)
Record Store := {
  states : gmap Z ProcessingState;
  index : gmap Z (list Passage)
}.


(** The Embedder, the answer-generation step ([None] when the provider
    fails) and the retrieval count K. *)
Variable embed : JSString → Vec.
Variable generate : JSString → JSString → option JSString.
Variable K : nat.

Definition fallback : JSString := JS.lit "no relevant content found".

(** Modelled from the spec: [answer(documentId, question)]
    (section 4.6). *)
Definition answer (st : Store) (documentId : Z) (question : JSString)
  : CoreError + JSString :=
  match states st !! documentId with
  | Some ready =>
      match query (index st) documentId (embed question) K with
      | inl e => inl e
      | inr [] => inr fallback
      | inr hits =>
          let context := concat (map (λ h, text (hit_passage h)) hits) in
          match generate question context with
          | Some output => inr output
          | None => inl AnswerGenerationFailed
          end
      end
  | _ => inl DocumentNotReady
  end.

(** Modelled from the spec: the ask endpoint (section 6) wraps the
    Answerer's result into the payload the client reads. *)
Definition ask_endpoint (st : Store) (documentId : Z) (question : JSString)
  : AxiosResult QuestionAnswer.AskResponse :=
  match answer st documentId question with
  | inr a => inr {| QuestionAnswer.answer := a |}
  | inl e => inl (ErrorPayload e)
  end.

End Retrieval.

(** The similarity used in the examples: the inner product. *)
Fixpoint dot (u v : list Qc) : Qc :=
  match u, v with
  | x :: u', y :: v' => (x * y + dot u' v')%Qc
  | _, _ => 0%Qc
  end.

End Core.

(* ===================================================================== *)
(** * Concrete inputs used by the examples below *)
(* ===================================================================== *)

Module Examples.

Definition empty_env : Env :=
  {| localStorage := ∅; headers := ∅; console := []; network := [] |}.

Definition props7 : QuestionAnswer.Props :=
  {| QuestionAnswer.documentId := 7;
     QuestionAnswer.documentTitle := JS.lit "report.pdf" |}.

(** The form with [q] typed into it and no exchange so far. *)
Definition typed (q : string) : QuestionAnswer.State :=
  {| QuestionAnswer.question := JS.lit q;
     QuestionAnswer.isLoading := false;
     QuestionAnswer.qaPairs := [] |}.

Definition reply42 : QuestionAnswer.AskResponse :=
  {| QuestionAnswer.answer := JS.lit "42" |}.

Definition doc (i : Z) (name : string) (done : bool) : DocumentList.Document :=
  {| DocumentList.id := i; DocumentList.title := JS.lit name;
     DocumentList.file := JS.lit "/media/documents/" ++ JS.lit name;
     DocumentList.uploaded_at := JS.lit "2024-05-01T10:00:00Z";
     DocumentList.processed := done |}.

(** Three documents, the second one selected. *)
Definition listing : DocumentList.State :=
  {| DocumentList.documents :=
       [doc 7 "report.pdf" true; doc 8 "notes.txt" false; doc 9 "draft.txt" true];
     DocumentList.selectedDocument := Some (doc 8 "notes.txt" false);
     DocumentList.loading := false |}.

(** A page opened with the token of an earlier visit still stored. *)
Definition returning_visit : Env :=
  {| localStorage := {[ JS.lit "token" := JS.lit "abc123" ]}; headers := ∅;
     console := []; network := [] |}.

Definition granted : AuthContext.AuthResponse :=
  {| AuthContext.data_token := JS.lit "f00d"; AuthContext.data_user_id := 3 |}.

Definition granted_bob : AuthContext.AuthResponse :=
  {| AuthContext.data_token := JS.lit "beef"; AuthContext.data_user_id := 4 |}.

(** Three passages with two-dimensional embeddings; the first and the
    third are equally close to the query [(1, 0)]. *)
Definition passages3 : list (Core.Passage (Vec := list Qc)) :=
  [ {| Core.ordinal := 0; Core.text := JS.lit "alpha"; Core.vector := [1; 0]%Qc |};
    {| Core.ordinal := 1; Core.text := JS.lit "beta"; Core.vector := [0; 1]%Qc |};
    {| Core.ordinal := 2; Core.text := JS.lit "gamma"; Core.vector := [1; 0]%Qc |} ].

(** A store with document 7 ready and indexed, document 8 failed. *)
Definition store : Core.Store (Vec := list Qc) :=
  {| Core.states := {[ 7 := Core.ready; 8 := Core.failed UnsupportedFormat ]};
     Core.index := Core.build ∅ 7 passages3 |}.

(** The upload form filled in. *)
Definition filled_form : DocumentUpload.State :=
  {| DocumentUpload.file :=
       Some {| file_name := JS.lit "report.pdf"; file_content := JS.lit "%PDF-1.7" |};
     DocumentUpload.title := JS.lit "Annual report";
     DocumentUpload.uploading := false |}.

(** One round at the question form. *)
Definition who_wrote_it : QuestionAnswer.Round :=
  {| QuestionAnswer.asked := JS.lit "Who wrote it?";
     QuestionAnswer.replied := {| QuestionAnswer.answer := JS.lit "Ada" |};
     QuestionAnswer.at_time := 1000 |}.

(** Three rounds at the question form. *)
Definition rounds3 : list QuestionAnswer.Round :=
  [ {| QuestionAnswer.asked := JS.lit "Who wrote it?";
       QuestionAnswer.replied := {| QuestionAnswer.answer := JS.lit "Ada" |};
       QuestionAnswer.at_time := 1000 |};
    {| QuestionAnswer.asked := JS.lit "When?";
       QuestionAnswer.replied := {| QuestionAnswer.answer := JS.lit "1843" |};
       QuestionAnswer.at_time := 2000 |};
    {| QuestionAnswer.asked := JS.lit "Where?";
       QuestionAnswer.replied := {| QuestionAnswer.answer := JS.lit "London" |};
       QuestionAnswer.at_time := 3000 |} ].

(** A stand-in Embedder and generation step. *)
Definition embed (q : JSString) : list Qc := [1; 0]%Qc.
Definition generate (q context : JSString) : option JSString := Some context.

End Examples.

(* ===================================================================== *)
(** * Properties of the string helpers *)
(* ===================================================================== *)

Section js_facts.
Import JS.

Lemma trimStart_nil_iff s : trimStart s = [] ↔ whitespace_only s = true.
Proof.
  unfold whitespace_only. induction s as [|c s IH]; simpl; [done|].
  destruct (isWhiteSpace c); simpl; [exact IH|]. split; discriminate.
Qed.

Lemma trimStart_head s c s' : trimStart s = c :: s' → isWhiteSpace c = false.
Proof.
  induction s as [|d s IH]; simpl; [discriminate|].
  destruct (isWhiteSpace d) eqn:Hd; [exact IH|]. congruence.
Qed.

Lemma whitespace_only_rev s : whitespace_only (rev s) = whitespace_only s.
Proof.
  unfold whitespace_only. induction s as [|c s IH]; simpl; [done|].
  rewrite forallb_app, IH. simpl. rewrite andb_true_r. apply andb_comm.
Qed.

Lemma trim_nil_iff s : trim s = [] ↔ whitespace_only s = true.
Proof.
  unfold trim, trimEnd. split.
  - intros H. apply (f_equal (@rev N)) in H. rewrite rev_involutive in H.
    simpl in H. apply trimStart_nil_iff in H. rewrite whitespace_only_rev in H.
    destruct (trimStart s) as [|c s'] eqn:Hs; [by apply trimStart_nil_iff|].
    apply trimStart_head in Hs. unfold whitespace_only in H. simpl in H.
    rewrite Hs in H. discriminate.
  - intros H. apply trimStart_nil_iff in H. by rewrite H.
Qed.

Lemma truthy_trim s : truthy (trim s) = negb (whitespace_only s).
Proof.
  destruct (whitespace_only s) eqn:Hw.
  - apply trim_nil_iff in Hw. by rewrite Hw.
  - destruct (trim s) eqn:Ht; [|done].
    apply trim_nil_iff in Ht. congruence.
Qed.

Example trim_example : trim (lit "  what is  this? ") = lit "what is  this?".
Proof. reflexivity. Qed.

Example trim_blank : trim [32; 9; 160; 8232; 65279]%N = [].
Proof. reflexivity. Qed.

Example not_whitespace : isWhiteSpace 6158 = false ∧ isWhiteSpace 95 = false.
Proof. split; reflexivity. Qed.

End js_facts.

(* ===================================================================== *)
(** * The question form *)
(* ===================================================================== *)

Section question_answer_facts.
Import QuestionAnswer.

(** Unfolds a run of [handleSubmit] once the guard is known. *)
Ltac run_submit H :=
  unfold handleSubmit, handleSubmit_request, handleSubmit_settle;
  rewrite ?truthy_trim, ?H; cbn.

Lemma handleSubmit_blank props s cur reply now e :
  JS.whitespace_only (question s) = true →
  run (handleSubmit props s reply now) cur e = (tt, cur, e).
Proof. intros H. by run_submit H. Qed.

Lemma handleSubmit_success props s cur data now e :
  JS.whitespace_only (question s) = false →
  run (handleSubmit props s (inr data) now) cur e =
    (tt,
     {| question := [];
        isLoading := false;
        qaPairs := {| pair_question := question s; pair_answer := answer data;
                      pair_timestamp := now |} :: qaPairs s |},
     {| localStorage := localStorage e; headers := headers e; console := console e;
        network := network e ++ [AskQuestion (documentId props) (question s)] |}).
Proof. intros H. by run_submit H. Qed.

Lemma handleSubmit_failure props s cur error now e :
  JS.whitespace_only (question s) = false →
  run (handleSubmit props s (inl error) now) cur e =
    (tt,
     {| question := question cur; isLoading := false; qaPairs := qaPairs cur |},
     {| localStorage := localStorage e; headers := headers e;
        console := console e ++ [{| log_message := JS.lit "Error asking question:";
                                    log_error := error |}];
        network := network e ++ [AskQuestion (documentId props) (question s)] |}).
Proof. intros H. by run_submit H. Qed.

(** C9: submitting a question that is empty or made of white space only
    sends no request and leaves the loading flag, the exchange list and the
    question field as they were; the submit button is disabled exactly when
    a request is in flight (the loading flag is set) or the trimmed question
    is empty, and it is disabled from the moment a request has gone out. *)
Theorem blank_question_is_ignored props s reply now e :
  JS.whitespace_only (question s) = true →
  run (handleSubmit props s reply now) s e = (tt, s, e)
  ∧ (∀ s', button_disabled (render props s') = true
           ↔ isLoading s' = true ∨ JS.trim (question s') = [])
  ∧ (∀ s' e',
       result_of (run (handleSubmit_request props s') s' e') = true →
       isLoading (state_of (run (handleSubmit_request props s') s' e')) = true
       ∧ button_disabled
           (render props (state_of (run (handleSubmit_request props s') s' e'))) = true).
Proof.
  intros H. split; [by apply handleSubmit_blank|]. split.
  - intros s'. unfold render; cbn. rewrite orb_true_iff, negb_true_iff.
    rewrite truthy_trim, negb_false_iff, trim_nil_iff. done.
  - intros s' e'. unfold handleSubmit_request. rewrite truthy_trim.
    destruct (JS.whitespace_only (question s')); cbn; [discriminate|done].
Qed.

Lemma blank_question_is_ignored_witness :
  JS.whitespace_only (question (Examples.typed "   ")) = true
  ∧ run (handleSubmit Examples.props7 (Examples.typed "   ")
           (inr Examples.reply42) 1000) (Examples.typed "   ") Examples.empty_env
    = (tt, Examples.typed "   ", Examples.empty_env).
Proof.
  split; [reflexivity|].
  apply (blank_question_is_ignored Examples.props7 (Examples.typed "   ")
           (inr Examples.reply42) 1000 Examples.empty_env).
  reflexivity.
Defined.

(** C4: an ask exchange sends one request, carrying the document id of the
    props and the question text as typed; the [answer] field of the payload
    that comes back is stored unmodified in the new pair, which is put in
    front of the earlier ones and shown with that same answer. *)
Theorem ask_exchange_verbatim props s data now e :
  JS.whitespace_only (question s) = false →
  let r := run (handleSubmit props s (inr data) now) s e in
  network (env_of r) = network e ++ [AskQuestion (documentId props) (question s)]
  ∧ qaPairs (state_of r)
    = {| pair_question := question s; pair_answer := answer data;
         pair_timestamp := now |} :: qaPairs s
  ∧ exchanges (render props (state_of r))
    = {| shown_question := question s; shown_answer := answer data;
         shown_time := now |} :: exchanges (render props s).
Proof. intros H. cbv zeta. by rewrite handleSubmit_success. Qed.

Lemma ask_exchange_verbatim_witness :
  JS.whitespace_only (question (Examples.typed "What is the total?")) = false
  ∧ exchanges (render Examples.props7
      (state_of (run (handleSubmit Examples.props7 (Examples.typed "What is the total?")
                        (inr Examples.reply42) 1000)
                     (Examples.typed "What is the total?") Examples.empty_env)))
    = [{| shown_question := JS.lit "What is the total?";
          shown_answer := JS.lit "42"; shown_time := 1000 |}].
Proof.
  split; [reflexivity|].
  apply (ask_exchange_verbatim Examples.props7 (Examples.typed "What is the total?")
           Examples.reply42 1000 Examples.empty_env).
  reflexivity.
Defined.

(** C2, as stated, fails: an ask that is rejected with DocumentNotReady and
    one rejected with AnswerGenerationFailed leave the component showing
    exactly what it showed before the submission, the same in both cases. *)
Lemma ask_failure_not_shown :
  let s := Examples.typed "What is the total?" in
  let after cause :=
    state_of (run (handleSubmit Examples.props7 s (inl (ErrorPayload cause)) 1000)
                  s Examples.empty_env) in
  render Examples.props7 (after DocumentNotReady) = render Examples.props7 s
  ∧ render Examples.props7 (after AnswerGenerationFailed)
    = render Examples.props7 (after DocumentNotReady).
Proof. split; reflexivity. Qed.

(** C2, amended: when an ask request fails, the handler writes the error
    with its cause to the console, clears the loading flag and leaves the
    question field and the exchange list untouched; the state it leaves,
    and so what the component shows, does not depend on the cause. *)
Theorem ask_failure_logged props s error now e :
  JS.whitespace_only (question s) = false →
  let r := run (handleSubmit props s (inl error) now) s e in
  console (env_of r)
    = console e ++ [{| log_message := JS.lit "Error asking question:";
                       log_error := error |}]
  ∧ state_of r
    = {| question := question s; isLoading := false; qaPairs := qaPairs s |}
  ∧ ∀ error', state_of (run (handleSubmit props s (inl error') now) s e) = state_of r.
Proof.
  intros H. cbv zeta. rewrite handleSubmit_failure by done.
  split; [done|]. split; [done|]. intros error'. by rewrite handleSubmit_failure.
Qed.

Lemma ask_failure_logged_witness :
  JS.whitespace_only (question (Examples.typed "What is the total?")) = false
  ∧ console (env_of (run (handleSubmit Examples.props7 (Examples.typed "What is the total?")
                            (inl NetworkError) 1000)
                         (Examples.typed "What is the total?") Examples.empty_env))
    = [{| log_message := JS.lit "Error asking question:"; log_error := NetworkError |}].
Proof.
  split; [reflexivity|].
  apply (ask_failure_logged Examples.props7 (Examples.typed "What is the total?")
           NetworkError 1000 Examples.empty_env).
  reflexivity.
Defined.

(** Exchanges live in the component state only.  A component that has
    just been mounted shows no exchange; a freshly mounted document list
    shows no question form at all; a run of the ask handler never writes
    to localStorage and sends nothing but the ask request itself; and the
    only change it makes to the exchange list is to add the one exchange
    built from the reply to its request. *)
Theorem exchanges_are_ephemeral props s cur reply now e :
  qaPairs mount = []
  ∧ exchanges (render props mount) = []
  ∧ DocumentList.panel DocumentList.mount = DocumentList.SelectPanel
  ∧ localStorage (env_of (run (handleSubmit props s reply now) cur e)) = localStorage e
  ∧ (network (env_of (run (handleSubmit props s reply now) cur e)) = network e
     ∨ network (env_of (run (handleSubmit props s reply now) cur e))
       = network e ++ [AskQuestion (documentId props) (question s)])
  ∧ (qaPairs (state_of (run (handleSubmit props s reply now) cur e)) = qaPairs cur
     ∨ ∃ data, reply = inr data
         ∧ qaPairs (state_of (run (handleSubmit props s reply now) cur e))
           = {| pair_question := question s; pair_answer := answer data;
                pair_timestamp := now |} :: qaPairs s).
Proof.
  do 3 (split; [reflexivity|]).
  destruct (JS.whitespace_only (question s)) eqn:H.
  - rewrite handleSubmit_blank by done. by split; [|split; left].
  - destruct reply as [error|data].
    + rewrite handleSubmit_failure by done. by split; [|split; [right|left]].
    + rewrite handleSubmit_success by done.
      split; [done|]. split; [by right|]. right. by exists data.
Qed.

End question_answer_facts.

(* ===================================================================== *)
(** * The document list *)
(* ===================================================================== *)

Section document_list_facts.
Import DocumentList.

Lemma handleDelete_success s i cur e :
  run (handleDelete s i true (inr tt)) cur e =
    (tt,
     {| documents := filter (other_than i) (documents s);
        selectedDocument :=
          if selected_is (selectedDocument s) i then None else selectedDocument cur;
        loading := loading cur |},
     {| localStorage := localStorage e; headers := headers e; console := console e;
        network := network e ++ [DeleteDocument i] |}).
Proof.
  unfold handleDelete. cbn. by destruct (selected_is (selectedDocument s) i).
Qed.

(** When the DELETE is rejected the list and the selection stay. *)
Lemma handleDelete_failure s i cur error e :
  state_of (run (handleDelete s i true (inl error)) cur e) = cur.
Proof. reflexivity. Qed.

(** Without the confirmation nothing happens at all. *)
Lemma handleDelete_declined s i cur reply e :
  run (handleDelete s i false reply) cur e = (tt, cur, e).
Proof. reflexivity. Qed.

(** Removing the entries of id [i] from a list whose ids are distinct
    removes the one entry that has it. *)
Lemma filter_other_than_unique i l1 d l2 :
  NoDup (map id (l1 ++ d :: l2)) → id d = i →
  filter (other_than i) (l1 ++ d :: l2) = l1 ++ l2.
Proof.
  intros Hnd Hd. rewrite map_app in Hnd. simpl in Hnd.
  apply list.NoDup_app in Hnd as (_ & Hdisj & Hnd2).
  apply list.NoDup_cons in Hnd2 as [Hd2 _].
  assert (Hkeep : ∀ l : list Document, id d ∉ map id l → filter (other_than i) l = l).
  { intros l. induction l as [|x l IH]; [done|]. simpl. intros Hx.
    apply not_elem_of_cons in Hx as [Hne Hx].
    rewrite filter_cons. unfold other_than at 1.
    destruct (decide (id x ≠ i)) as [_|Heq]; [by rewrite IH|].
    exfalso. apply Heq. congruence. }
  rewrite list.filter_app, filter_cons. unfold other_than at 2.
  destruct (decide (id d ≠ i)) as [Hne|_]; [done|].
  rewrite !Hkeep; [done|done|].
  intros Hin. apply (Hdisj (id d)); [done|]. left.
Qed.

(** C1, as stated, fails: the processing state of a [Document] of the client
    is the boolean [processed], and no reading of a boolean tells pending,
    processing and ready apart (let alone failed as well). *)
Lemma processed_flag_is_two_valued :
  ¬ ∃ state : Document → Core.ProcessingState,
      (∀ d d', processed d = processed d' → state d = state d')
      ∧ (∃ d, state d = Core.pending)
      ∧ (∃ d, state d = Core.processing)
      ∧ (∃ d, state d = Core.ready).
Proof.
  intros (state & Hflag & [d1 H1] & [d2 H2] & [d3 H3]).
  destruct (processed d1) eqn:E1, (processed d2) eqn:E2, (processed d3) eqn:E3;
    first [ assert (state d1 = state d2) by (apply Hflag; congruence); congruence
          | assert (state d1 = state d3) by (apply Hflag; congruence); congruence
          | assert (state d2 = state d3) by (apply Hflag; congruence); congruence ].
Qed.

(** C1, amended: the processing state the client receives for a document is
    the two-valued flag [processed].  The badge reads 'Processed' when the
    flag is set and 'Processing...' when it is not, and a selected document
    gets the question form exactly when its flag is set, the waiting notice
    otherwise: no document is queryable in the client without being marked
    processed. *)
Theorem processing_state_is_a_flag doc docs busy :
  badge doc = (if processed doc then JS.lit "Processed" else JS.lit "Processing...")
  ∧ badge doc ≠ (if processed doc then JS.lit "Processing..." else JS.lit "Processed")
  ∧ panel {| documents := docs; selectedDocument := Some doc; loading := busy |}
    = (if processed doc
       then QuestionAnswerPanel {| QuestionAnswer.documentId := id doc;
                                   QuestionAnswer.documentTitle := title doc |}
       else ProcessingPanel (title doc)).
Proof.
  split; [reflexivity|]. split; [|reflexivity].
  unfold badge. by destruct (processed doc).
Qed.

(** The delete on a quiet page, where nothing else happens between the
    click and the reply: a delete that the user confirms and the endpoint
    carries out sends the DELETE request for that id; the list the
    component is left with is the previous one without the entries of that
    id, in the same order and otherwise untouched (when ids are distinct:
    the previous list with that one entry taken out); the selection is
    dropped when it was the deleted document and kept otherwise. *)
Theorem confirmed_delete_removes_the_document s i e :
  let r := run (handleDelete s i true (inr tt)) s e in
  network (env_of r) = network e ++ [DeleteDocument i]
  ∧ documents (state_of r) = filter (λ doc, id doc ≠ i) (documents s)
  ∧ (∀ doc, doc ∈ documents (state_of r) ↔ doc ∈ documents s ∧ id doc ≠ i)
  ∧ (∀ l1 d l2, documents s = l1 ++ d :: l2 → id d = i →
       NoDup (map id (documents s)) → documents (state_of r) = l1 ++ l2)
  ∧ (∀ sel, selectedDocument s = Some sel →
       (id sel = i → selectedDocument (state_of r) = None)
       ∧ (id sel ≠ i → selectedDocument (state_of r) = Some sel))
  ∧ (selectedDocument s = None → selectedDocument (state_of r) = None).
Proof.
  cbv zeta. rewrite handleDelete_success. cbn.
  split; [done|]. split; [done|]. split.
  { intros doc. rewrite list_elem_of_filter. unfold other_than. tauto. }
  split.
  { intros l1 d l2 -> Hd Hnd. by apply filter_other_than_unique. }
  split.
  - intros sel ->. cbn. split; intros Hi.
    + by rewrite bool_decide_eq_true_2.
    + by rewrite bool_decide_eq_false_2.
  - by intros ->.
Qed.

Lemma confirmed_delete_removes_the_document_witness :
  let r := run (handleDelete Examples.listing 8 true (inr tt))
               Examples.listing Examples.empty_env in
  documents (state_of r)
    = [Examples.doc 7 "report.pdf" true; Examples.doc 9 "draft.txt" true]
  ∧ selectedDocument (state_of r) = None.
Proof.
  cbv zeta.
  destruct (confirmed_delete_removes_the_document Examples.listing 8 Examples.empty_env)
    as (_ & _ & _ & Hlist & Hsel & _).
  split.
  - apply (Hlist [Examples.doc 7 "report.pdf" true] (Examples.doc 8 "notes.txt" false)
             [Examples.doc 9 "draft.txt" true]); [reflexivity|reflexivity|].
    apply (bool_decide_unpack _). vm_compute. exact I.
  - apply (Hsel (Examples.doc 8 "notes.txt" false)); reflexivity.
Defined.

End document_list_facts.

(* ===================================================================== *)
(** * The authentication context *)
(* ===================================================================== *)

Section auth_context_facts.
Import AuthContext.

Local Arguments JS.lit : simpl never.

Lemma login_established u p data s e :
  established u data (run (login u p (inr data) WriteAccepted) s e) s.
Proof.
  unfold established, login; cbn.
  do 2 (split; [done|]). split; apply lookup_insert_eq.
Qed.

Lemma register_established u p m data s e :
  established u data (run (register u p m (inr data) WriteAccepted) s e) s.
Proof.
  unfold established, register; cbn.
  do 2 (split; [done|]). split; apply lookup_insert_eq.
Qed.

Lemma login_untouched u p err write s e :
  untouched (run (login u p (inl err) write) s e) s e.
Proof. unfold untouched, login; cbn. by destruct s. Qed.

Lemma register_untouched u p m err write s e :
  untouched (run (register u p m (inl err) write) s e) s e.
Proof. unfold untouched, register; cbn. by destruct s. Qed.

(** The refused write: false comes back, yet the token and the user of the
    context are already the new ones, with localStorage and the header
    still the old ones. *)
Lemma login_half_done u p data s e :
  half_done u data (run (login u p (inr data) WriteRefused) s e) s e.
Proof. by unfold half_done, login. Qed.

Lemma register_half_done u p m data s e :
  half_done u data (run (register u p m (inr data) WriteRefused) s e) s e.
Proof. by unfold half_done, register. Qed.

Lemma established_invariant u data (r : bool * State * Env) s :
  established u data r s → header_invariant (state_of r) (env_of r).
Proof.
  intros (_ & Hs & Hl & Hh). unfold header_invariant. rewrite Hs, Hl, Hh. cbn.
  split.
  - split; [by eexists|by eexists].
  - intros h [= <-]. by eexists.
Qed.

Lemma untouched_invariant (r : bool * State * Env) s e :
  untouched r s e → header_invariant s e → header_invariant (state_of r) (env_of r).
Proof.
  intros (_ & Hs & Hl & Hh). unfold header_invariant. by rewrite Hs, Hl, Hh.
Qed.

Lemma logout_invariant s e :
  header_invariant (state_of (run logout s e)) (env_of (run logout s e)).
Proof.
  unfold header_invariant, logout; cbn. rewrite lookup_delete_eq. split.
  - split; [by intros [? ?]|]. by intros (t & ? & _).
  - by intros h.
Qed.

Lemma initialize_invariant e0 :
  page_load e0 →
  header_invariant (state_of (run initialize mount e0)) (env_of (run initialize mount e0)).
Proof.
  unfold page_load, header_invariant, initialize; cbn. intros Hfresh.
  destruct (localStorage e0 !! JS.lit "token") as [t|] eqn:Hl; cbn.
  - destruct (JS.truthy t); cbn.
    + rewrite lookup_insert_eq, Hl. split.
      * split; [by eexists|by eexists].
      * intros h [= <-]. by eexists.
    + rewrite Hfresh. split; [|by intros h].
      split; [by intros [? ?]|]. by intros (? & ? & _).
  - rewrite Hfresh. split; [|by intros h].
    split; [by intros [? ?]|]. by intros (? & ? & _).
Qed.

(** As long as no storage write is refused, every completed operation
    keeps the header in step with the token. *)
Lemma perform_invariant op s e :
  writes_accepted op →
  header_invariant s e →
  header_invariant (state_of (run (perform op) s e)) (env_of (run (perform op) s e)).
Proof.
  intros Hok Hinv. destruct op as [u p [err|data] write|u p m [err|data] write|].
  - exact (untouched_invariant _ _ _ (login_untouched u p err write s e) Hinv).
  - destruct write; [|done].
    exact (established_invariant _ _ _ _ (login_established u p data s e)).
  - exact (untouched_invariant _ _ _ (register_untouched u p m err write s e) Hinv).
  - destruct write; [|done].
    exact (established_invariant _ _ _ _ (register_established u p m data s e)).
  - apply logout_invariant.
Qed.

(** C10 does not hold of the code.  A first login succeeds and leaves the
    header in step with the token: token 'f00d' in the context and in
    localStorage, header 'Token f00d'.  A second login is accepted by the
    provider with token 'beef', but its [localStorage.setItem] is refused:
    [login] returns false although the context already holds the token and
    the user of the second login, while localStorage and the header still
    carry the first token.  The header is set without the context token
    matching the stored one, in a state the provider has reached through
    completed operations only. *)
Theorem refused_storage_write_breaks_the_session :
  let start := run initialize mount Examples.empty_env in
  let first :=
    run (login (JS.lit "ada") (JS.lit "secret") (inr Examples.granted) WriteAccepted)
        (state_of start) (env_of start) in
  let second :=
    run (login (JS.lit "bob") (JS.lit "hunter2") (inr Examples.granted_bob) WriteRefused)
        (state_of first) (env_of first) in
  result_of first = true
  ∧ header_invariant (state_of first) (env_of first)
  ∧ result_of second = false
  ∧ token (state_of second) = Some (JS.lit "beef")
  ∧ user (state_of second) = Some {| id := 4; username := JS.lit "bob" |}
  ∧ localStorage (env_of second) !! JS.lit "token" = Some (JS.lit "f00d")
  ∧ headers (env_of second) !! JS.lit "Authorization" = Some (JS.lit "Token f00d")
  ∧ reachable (state_of second) (env_of second)
  ∧ ¬ header_invariant (state_of second) (env_of second).
Proof.
  cbv zeta.
  split; [reflexivity|].
  split; [exact (established_invariant _ _ _ _ (login_established _ _ _ _ _))|].
  split; [reflexivity|]. split; [reflexivity|]. split; [reflexivity|].
  assert (Hstored :
    localStorage
      (env_of (run (login (JS.lit "bob") (JS.lit "hunter2")
                      (inr Examples.granted_bob) WriteRefused)
                 (state_of (run (login (JS.lit "ada") (JS.lit "secret")
                                   (inr Examples.granted) WriteAccepted)
                              (state_of (run initialize mount Examples.empty_env))
                              (env_of (run initialize mount Examples.empty_env))))
                 (env_of (run (login (JS.lit "ada") (JS.lit "secret")
                                 (inr Examples.granted) WriteAccepted)
                            (state_of (run initialize mount Examples.empty_env))
                            (env_of (run initialize mount Examples.empty_env))))))
      !! JS.lit "token" = Some (JS.lit "f00d")) by reflexivity.
  assert (Hheader :
    headers
      (env_of (run (login (JS.lit "bob") (JS.lit "hunter2")
                      (inr Examples.granted_bob) WriteRefused)
                 (state_of (run (login (JS.lit "ada") (JS.lit "secret")
                                   (inr Examples.granted) WriteAccepted)
                              (state_of (run initialize mount Examples.empty_env))
                              (env_of (run initialize mount Examples.empty_env))))
                 (env_of (run (login (JS.lit "ada") (JS.lit "secret")
                                 (inr Examples.granted) WriteAccepted)
                            (state_of (run initialize mount Examples.empty_env))
                            (env_of (run initialize mount Examples.empty_env))))))
      !! JS.lit "Authorization" = Some (JS.lit "Token f00d")) by reflexivity.
  split; [exact Hstored|]. split; [exact Hheader|]. split.
  - apply (reach_perform _ _ (OpLogin (JS.lit "bob") (JS.lit "hunter2")
                                (inr Examples.granted_bob) WriteRefused)).
    apply (reach_perform _ _ (OpLogin (JS.lit "ada") (JS.lit "secret")
                                (inr Examples.granted) WriteAccepted)).
    apply reach_initialize. reflexivity.
  - intros [Hiff _]. destruct (proj1 Hiff) as (t & Ht & Hl).
    + rewrite Hheader. by eexists.
    + rewrite Hstored in Hl. cbn in Ht.
      assert (Hsame : JS.lit "beef" = JS.lit "f00d") by congruence.
      vm_compute in Hsame. discriminate Hsame.
Qed.

End auth_context_facts.

(* ===================================================================== *)
(** * The retrieval core *)
(* ===================================================================== *)

Section core_facts.
Import Core.
Context {Vec : Type} (similarity : Vec → Vec → Qc).

Global Instance ranks_before_total : Total (ranks_before (Vec := Vec)).
Proof.
  intros a b. unfold ranks_before.
  destruct (Qc_dec (hit_score a) (hit_score b)) as [[Hlt|Hgt]|Heq]; [by right; left|by left; left|].
  destruct (Nat.le_ge_cases (ordinal (hit_passage a)) (ordinal (hit_passage b))).
  - left; right. done.
  - right; right. done.
Qed.

Global Instance ranks_before_trans : Transitive (ranks_before (Vec := Vec)).
Proof.
  intros a b c. unfold ranks_before.
  intros [Hab|[Hab Oab]] [Hbc|[Hbc Obc]].
  - left. by etrans.
  - left. by rewrite <- Hbc.
  - left. by rewrite Hab.
  - right. split; [congruence|lia].
Qed.





End core_facts.

Section core_examples.
Import Core.



(** The ranking of the example: the two passages aligned with the query
    first, the earlier of them in front. *)
Example query_example :
  query dot (index Examples.store) 7 [1; 0]%Qc 2
  = inr [score dot [1; 0]%Qc {| ordinal := 0; text := JS.lit "alpha"; vector := [1; 0]%Qc |};
         score dot [1; 0]%Qc {| ordinal := 2; text := JS.lit "gamma"; vector := [1; 0]%Qc |}].
Proof. vm_compute. reflexivity. Qed.

(** C7: the extractor fails with UnsupportedFormat exactly on files that
    are neither PDF nor plain text, and on no other; the file input of the
    upload form offers the extensions .pdf and .txt, which are exactly the
    extensions of the two supported types. *)
Theorem only_pdf_and_text_are_ingested :
  (∀ f, extract f = inl UnsupportedFormat
        ↔ file_type f ≠ PDF ∧ file_type f ≠ PlainText)
  ∧ (∀ f, file_type f = PDF ∨ file_type f = PlainText →
          extract f = inl ExtractionFailed ∨ ∃ blocks, extract f = inr blocks)
  ∧ DocumentUpload.accept_tokens = [JS.lit ".pdf"; JS.lit ".txt"]
  ∧ (∀ ext, ext ∈ DocumentUpload.accept_tokens ↔ type_of_extension ext ≠ OtherType).
Proof.
  split.
  { intros [[] [blocks|]]; cbn; split; try done; try (by intros [? ?]). }
  split.
  { intros [[] [blocks|]]; cbn; intros [?|?]; try done; eauto. }
  split; [reflexivity|].
  intros ext. change DocumentUpload.accept_tokens with [JS.lit ".pdf"; JS.lit ".txt"].
  unfold type_of_extension. rewrite !elem_of_cons, elem_of_nil.
  destruct (decide (ext = JS.lit ".pdf")) as [->|Hpdf]; [split; [done|by left]|].
  destruct (decide (ext = JS.lit ".txt")) as [->|Htxt]; [split; [done|by right; left]|].
  split; [by intros [?|[?|[]]]|done].
Qed.

Lemma only_pdf_and_text_are_ingested_witness :
  extract {| file_type := OtherType; readable := Some [JS.lit "PK..."] |}
    = inl UnsupportedFormat
  ∧ type_of_extension (JS.lit ".docx") = OtherType
  ∧ JS.lit ".docx" ∉ DocumentUpload.accept_tokens.
Proof.
  destruct only_pdf_and_text_are_ingested as (Hext & _ & _ & Hacc).
  split; [|split; [reflexivity|]].
  - apply Hext. split; discriminate.
  - intros Hin. apply Hacc in Hin. apply Hin. reflexivity.
Defined.

End core_examples.

(* ===================================================================== *)
(** * Documents that are not ready *)
(* ===================================================================== *)

Section not_ready_facts.
Import Core DocumentList.
Context {Vec : Type} (similarity : Vec → Vec → Qc).
Context (embed : JSString → Vec) (generate : JSString → JSString → option JSString).
Context (K : nat).

Lemma query_error (idx : gmap Z (list Passage)) d v k e :
  query similarity idx d v k = inl e → e = IndexNotReady.
Proof. unfold query. destruct (idx !! d); congruence. Qed.

(** C3: [answer] fails with DocumentNotReady exactly when the state of the
    document is not ready.  In the client, a selected document whose
    [processed] flag is false gets the waiting notice instead of the
    question form, so the form cannot be submitted for it; whenever the
    form can be submitted, it belongs to the selected document and that
    document is marked processed. *)
Theorem not_ready_is_never_asked :
  (∀ (st : Store) d q,
     answer similarity embed generate K st d q = inl DocumentNotReady
     ↔ states st !! d ≠ Some ready)
  ∧ (∀ s sel qa reply now,
       selectedDocument s = Some sel → processed sel = false →
       panel s = ProcessingPanel (title sel)
       ∧ submitQuestion s qa reply now = None)
  ∧ (∀ s qa reply now h,
       submitQuestion s qa reply now = Some h →
       ∃ sel, selectedDocument s = Some sel ∧ processed sel = true
              ∧ h = QuestionAnswer.handleSubmit
                      {| QuestionAnswer.documentId := id sel;
                         QuestionAnswer.documentTitle := title sel |} qa reply now).
Proof.
  split; [|split].
  - intros st d q. unfold answer.
    destruct (states st !! d) as [[| | |reason]|] eqn:Hst; try (split; [congruence|done]).
    split; [|done].
    destruct (query similarity (index st) d (embed q) K) as [e|[|h hits]] eqn:Hq.
    + apply query_error in Hq as ->. discriminate.
    + discriminate.
    + destruct (generate q _); discriminate.
  - intros s sel qa reply now Hsel Hflag.
    unfold submitQuestion, render, panel. rewrite Hsel, Hflag.
    split; [done|]. by destruct (loading s).
  - intros s qa reply now h. unfold submitQuestion, render, panel.
    destruct (loading s); [discriminate|].
    destruct (selectedDocument s) as [sel|]; [|discriminate].
    destruct (processed sel) eqn:Hflag; [|discriminate].
    intros [= <-]. by exists sel.
Qed.

End not_ready_facts.

Section not_ready_examples.
Import Core DocumentList.

Lemma not_ready_is_never_asked_witness :
  states Examples.store !! 8 ≠ Some ready
  ∧ answer dot Examples.embed Examples.generate 3 Examples.store 8 (JS.lit "Why?")
    = inl DocumentNotReady
  ∧ selectedDocument Examples.listing = Some (Examples.doc 8 "notes.txt" false)
  ∧ submitQuestion Examples.listing (Examples.typed "Why?") (inr Examples.reply42) 1000
    = None.
Proof.
  destruct (not_ready_is_never_asked dot Examples.embed Examples.generate 3)
    as (Hanswer & Hform & _).
  assert (Hstate : states Examples.store !! 8 ≠ Some ready) by (vm_compute; discriminate).
  split; [exact Hstate|]. split; [by apply Hanswer|]. split; [reflexivity|].
  apply (Hform Examples.listing (Examples.doc 8 "notes.txt" false)); reflexivity.
Defined.

(** The ask endpoint on the ready example document: the output of the
    generation step (here the context it was given, the passage texts in
    rank order) comes back unchanged as the answer. *)
Example ask_endpoint_example :
  ask_endpoint dot Examples.embed Examples.generate 3 Examples.store 7 (JS.lit "Why?")
  = inr {| QuestionAnswer.answer := JS.lit "alphagammabeta" |}.
Proof. vm_compute. reflexivity. Qed.

End not_ready_examples.

(* ===================================================================== *)
(** * More on the question form *)
(* ===================================================================== *)

Section question_form_life_cycle.
Import QuestionAnswer.

(** X1: while an ask request is in flight the input is disabled and the
    button reads 'Asking...', with the typed question and the exchanges
    still in place; once the call has settled, whether it succeeded or
    failed, the loading flag is off, the input is enabled and the button
    reads 'Ask' again. *)
Theorem loading_brackets_the_request props s reply now e :
  JS.whitespace_only (question s) = false →
  let sent := run (handleSubmit_request props s) s e in
  let settled := run (handleSubmit props s reply now) s e in
  result_of sent = true
  ∧ input_disabled (render props (state_of sent)) = true
  ∧ button_label (render props (state_of sent)) = JS.lit "Asking..."
  ∧ question (state_of sent) = question s
  ∧ qaPairs (state_of sent) = qaPairs s
  ∧ isLoading (state_of settled) = false
  ∧ input_disabled (render props (state_of settled)) = false
  ∧ button_label (render props (state_of settled)) = JS.lit "Ask".
Proof.
  intros H. cbv zeta. split; [|split; [|split; [|split; [|split]]]].
  1-5: unfold handleSubmit_request; rewrite truthy_trim, H; reflexivity.
  destruct reply as [error|data].
  - rewrite handleSubmit_failure by done. done.
  - rewrite handleSubmit_success by done. done.
Qed.

Lemma loading_brackets_the_request_witness :
  JS.whitespace_only (question (Examples.typed "Why?")) = false
  ∧ button_label
      (render Examples.props7
         (state_of (run (handleSubmit_request Examples.props7 (Examples.typed "Why?"))
                        (Examples.typed "Why?") Examples.empty_env)))
    = JS.lit "Asking...".
Proof.
  split; [reflexivity|].
  apply (loading_brackets_the_request Examples.props7 (Examples.typed "Why?")
           (inl NetworkError) 0 Examples.empty_env).
  reflexivity.
Defined.

(** X2: after a question has been answered the field is empty and the
    button disabled, and submitting the form again as it stands sends
    nothing and changes nothing: an answered question is not asked
    twice. *)
Theorem answered_question_is_not_resent props s data now reply' now' e :
  JS.whitespace_only (question s) = false →
  let r := run (handleSubmit props s (inr data) now) s e in
  question (state_of r) = []
  ∧ button_disabled (render props (state_of r)) = true
  ∧ run (handleSubmit props (state_of r) reply' now') (state_of r) (env_of r)
    = (tt, state_of r, env_of r).
Proof.
  intros H. cbv zeta. rewrite handleSubmit_success by done.
  split; [done|]. split; [done|]. by apply handleSubmit_blank.
Qed.

Lemma answered_question_is_not_resent_witness :
  JS.whitespace_only (question (Examples.typed "Why?")) = false
  ∧ button_disabled
      (render Examples.props7
         (state_of (run (handleSubmit Examples.props7 (Examples.typed "Why?")
                           (inr Examples.reply42) 1000)
                        (Examples.typed "Why?") Examples.empty_env))) = true.
Proof.
  split; [reflexivity|].
  apply (answered_question_is_not_resent Examples.props7 (Examples.typed "Why?")
           Examples.reply42 1000 (inr Examples.reply42) 2000 Examples.empty_env).
  reflexivity.
Defined.

(** X3: after a failed ask the form is back as it was before the
    submission, question included, with the button enabled; submitting it
    again sends the same request a second time, and a reply to that one is
    recorded as usual. *)
Theorem failed_question_can_be_retried props s error data now now' e :
  JS.whitespace_only (question s) = false →
  isLoading s = false →
  let r := run (handleSubmit props s (inl error) now) s e in
  let r' := run (handleSubmit props (state_of r) (inr data) now') (state_of r) (env_of r) in
  state_of r = s
  ∧ button_disabled (render props (state_of r)) = false
  ∧ network (env_of r')
    = network e ++ [AskQuestion (documentId props) (question s);
                    AskQuestion (documentId props) (question s)]
  ∧ qaPairs (state_of r')
    = {| pair_question := question s; pair_answer := answer data;
         pair_timestamp := now' |} :: qaPairs s.
Proof.
  intros H Hidle. cbv zeta. rewrite handleSubmit_failure by done.
  unfold state_of, env_of; cbn [fst snd].
  rewrite handleSubmit_success by done. cbn [fst snd question qaPairs network].
  split; [destruct s; cbn in *; congruence|].
  split.
  { unfold render; cbn [button_disabled isLoading question].
    by rewrite truthy_trim, H. }
  split; [by rewrite <- app_assoc|done].
Qed.

Lemma failed_question_can_be_retried_witness :
  JS.whitespace_only (question (Examples.typed "Why?")) = false
  ∧ isLoading (Examples.typed "Why?") = false
  ∧ state_of (run (handleSubmit Examples.props7 (Examples.typed "Why?")
                     (inl NetworkError) 1000)
                  (Examples.typed "Why?") Examples.empty_env)
    = Examples.typed "Why?".
Proof.
  split; [reflexivity|]. split; [reflexivity|].
  apply (failed_question_can_be_retried Examples.props7 (Examples.typed "Why?")
           NetworkError Examples.reply42 1000 2000 Examples.empty_env);
    reflexivity.
Defined.

Lemma run_ask_round props r s e :
  JS.whitespace_only (asked r) = false →
  run (ask_round props r) s e =
    (tt,
     {| question := []; isLoading := false;
        qaPairs := {| pair_question := asked r; pair_answer := answer (replied r);
                      pair_timestamp := at_time r |} :: qaPairs s |},
     {| localStorage := localStorage e; headers := headers e; console := console e;
        network := network e ++ [AskQuestion (documentId props) (asked r)] |}).
Proof.
  intros H. unfold ask_round, from_render, onChange, setQuestion, modify.
  cbn -[handleSubmit]. by rewrite handleSubmit_success.
Qed.

(** X4: a series of answered questions, each typed and submitted after the
    previous one has settled, leaves the exchanges newest first in front of
    the earlier ones, one per question and none lost, and has sent one ask
    request per question in the order asked; nothing is written to the
    console or to localStorage on the way. *)
Theorem exchanges_are_newest_first props rs s e :
  Forall (λ r, JS.whitespace_only (asked r) = false) rs →
  let out := run (ask_rounds props rs) s e in
  qaPairs (state_of out)
    = rev (map (λ r, {| pair_question := asked r; pair_answer := answer (replied r);
                        pair_timestamp := at_time r |}) rs) ++ qaPairs s
  ∧ network (env_of out)
    = network e ++ map (λ r, AskQuestion (documentId props) (asked r)) rs
  ∧ console (env_of out) = console e
  ∧ localStorage (env_of out) = localStorage e.
Proof.
  intros Hrs. cbv zeta. revert s e.
  induction Hrs as [|r rs Hr _ IH]; intros s e.
  - cbn. by rewrite app_nil_r.
  - change (run (ask_rounds props (r :: rs)) s e)
      with (let '(_, s', e') := run (ask_round props r) s e in
            run (ask_rounds props rs) s' e').
    rewrite run_ask_round by done.
    destruct (IH {| question := []; isLoading := false;
                    qaPairs := {| pair_question := asked r;
                                  pair_answer := answer (replied r);
                                  pair_timestamp := at_time r |} :: qaPairs s |}
                 {| localStorage := localStorage e; headers := headers e;
                    console := console e;
                    network := network e ++ [AskQuestion (documentId props) (asked r)] |})
      as (Hq & Hn & Hc & Hl).
    rewrite Hq, Hn, Hc, Hl. cbn.
    split; [by rewrite <- app_assoc|]. split; [by rewrite <- app_assoc|]. done.
Qed.

Lemma exchanges_are_newest_first_witness :
  Forall (λ r, JS.whitespace_only (asked r) = false) Examples.rounds3
  ∧ map shown_answer
      (exchanges (render Examples.props7
         (state_of (run (ask_rounds Examples.props7 Examples.rounds3)
                        mount Examples.empty_env))))
    = [JS.lit "London"; JS.lit "1843"; JS.lit "Ada"].
Proof.
  assert (H : Forall (λ r, JS.whitespace_only (asked r) = false) Examples.rounds3).
  { repeat constructor. }
  split; [exact H|].
  destruct (exchanges_are_newest_first Examples.props7 Examples.rounds3 mount
              Examples.empty_env H) as (Hq & _).
  unfold render; cbn [exchanges]. rewrite Hq. reflexivity.
Defined.

End question_form_life_cycle.

(* ===================================================================== *)
(** * The upload form *)
(* ===================================================================== *)

Section upload_form_facts.
Import DocumentUpload.

Lemma handleSubmit_upload s f cur reply e :
  file s = Some f → title s ≠ [] →
  run (handleSubmit s reply) cur e =
    match reply with
    | inr _ =>
        (true, {| file := None; title := []; uploading := false |},
         {| localStorage := localStorage e; headers := headers e; console := console e;
            network := network e ++ [UploadDocument f (title s)] |})
    | inl error =>
        (false, {| file := file cur; title := title cur; uploading := false |},
         {| localStorage := localStorage e; headers := headers e;
            console := console e ++ [{| log_message := JS.lit "Upload failed:";
                                        log_error := error |}];
            network := network e ++ [UploadDocument f (title s)] |})
    end.
Proof.
  intros Hf Ht. unfold handleSubmit. rewrite Hf.
  destruct (title s) as [|c t] eqn:E; [done|]. by destruct reply.
Qed.

(** X5: the upload form submitted without a file or with an empty title
    sends nothing, changes nothing and does not notify the parent; its
    button is disabled exactly when an upload is under way, no file is
    chosen or the title is empty (a title of blanks counts as a title). *)
Theorem incomplete_upload_is_ignored s reply e :
  file s = None ∨ title s = [] →
  run (handleSubmit s reply) s e = (false, s, e)
  ∧ (∀ s', button_disabled (render s') = true
           ↔ uploading s' = true ∨ file s' = None ∨ title s' = []).
Proof.
  intros H. split.
  - unfold handleSubmit. destruct (file s) as [f|]; [|done].
    destruct H as [? | ->]; done.
  - intros s'. unfold render; cbn.
    destruct (uploading s'), (file s'), (title s'); cbn; intuition congruence.
Qed.

Lemma incomplete_upload_is_ignored_witness :
  (file mount = None ∨ title mount = [])
  ∧ run (handleSubmit mount (inr tt)) mount Examples.empty_env
    = (false, mount, Examples.empty_env).
Proof.
  split; [by left|].
  apply (incomplete_upload_is_ignored mount (inr tt) Examples.empty_env). by left.
Defined.

(** X6: an upload that succeeds sends one request carrying the chosen file
    and the title as typed, notifies the parent, and leaves the form as
    freshly mounted: no file, empty title, not uploading. *)
Theorem upload_success_resets_the_form s f e :
  file s = Some f →
  title s ≠ [] →
  let r := run (handleSubmit s (inr tt)) s e in
  result_of r = true
  ∧ state_of r = mount
  ∧ network (env_of r) = network e ++ [UploadDocument f (title s)]
  ∧ console (env_of r) = console e
  ∧ button_disabled (render (state_of r)) = true.
Proof.
  intros Hf Ht. cbv zeta. by rewrite (handleSubmit_upload s f) by done.
Qed.

Lemma upload_success_resets_the_form_witness :
  file Examples.filled_form
    = Some {| file_name := JS.lit "report.pdf"; file_content := JS.lit "%PDF-1.7" |}
  ∧ title Examples.filled_form ≠ []
  ∧ state_of (run (handleSubmit Examples.filled_form (inr tt))
                  Examples.filled_form Examples.empty_env) = mount.
Proof.
  split; [reflexivity|]. split; [discriminate|].
  apply (upload_success_resets_the_form Examples.filled_form
           {| file_name := JS.lit "report.pdf"; file_content := JS.lit "%PDF-1.7" |}
           Examples.empty_env); [reflexivity|discriminate].
Defined.

(** X7: an upload that fails is logged to the console and does not notify
    the parent; the chosen file and the title stay in the form with the
    button enabled, and submitting again sends the same upload once
    more. *)
Theorem failed_upload_keeps_the_form s f error reply' e :
  file s = Some f →
  title s ≠ [] →
  uploading s = false →
  let r := run (handleSubmit s (inl error)) s e in
  let r' := run (handleSubmit (state_of r) reply') (state_of r) (env_of r) in
  result_of r = false
  ∧ state_of r = s
  ∧ console (env_of r)
    = console e ++ [{| log_message := JS.lit "Upload failed:"; log_error := error |}]
  ∧ button_disabled (render (state_of r)) = false
  ∧ network (env_of r')
    = network e ++ [UploadDocument f (title s); UploadDocument f (title s)].
Proof.
  intros Hf Ht Hu. cbv zeta. rewrite (handleSubmit_upload s f) by done.
  unfold result_of, state_of, env_of; cbn [fst snd].
  assert (Hs : {| file := file s; title := title s; uploading := false |} = s).
  { destruct s; cbn in *; congruence. }
  rewrite Hs. split; [done|]. split; [done|]. split; [done|]. split.
  - unfold render; cbn. rewrite Hf, Hu. by destruct (title s).
  - rewrite (handleSubmit_upload s f) by done.
    destruct reply'; cbn; by rewrite <- app_assoc.
Qed.

Lemma failed_upload_keeps_the_form_witness :
  file Examples.filled_form
    = Some {| file_name := JS.lit "report.pdf"; file_content := JS.lit "%PDF-1.7" |}
  ∧ title Examples.filled_form ≠ []
  ∧ uploading Examples.filled_form = false
  ∧ state_of (run (handleSubmit Examples.filled_form (inl NetworkError))
                  Examples.filled_form Examples.empty_env) = Examples.filled_form.
Proof.
  split; [reflexivity|]. split; [discriminate|]. split; [reflexivity|].
  apply (failed_upload_keeps_the_form Examples.filled_form
           {| file_name := JS.lit "report.pdf"; file_content := JS.lit "%PDF-1.7" |}
           NetworkError (inr tt) Examples.empty_env);
    [reflexivity|discriminate|reflexivity].
Defined.

End upload_form_facts.

(* ===================================================================== *)
(** * More on the document list *)
(* ===================================================================== *)

Section document_list_life_cycle.
Import DocumentList.

(** X8: after the fetch that follows the mount, the page lists one row per
    document of the reply, in the order of the reply, with its id, title
    and badge, none highlighted, beside the prompt to select a document;
    one list request was sent. *)
Theorem first_fetch_lists_the_reply data e :
  let r := run (fetchDocuments (inr data)) mount e in
  render (state_of r)
    = ListView
        (map (λ doc, {| row_key := id doc; row_title := title doc;
                        row_badge := badge doc; row_highlighted := false |}) data)
        SelectPanel
  ∧ network (env_of r) = network e ++ [ListDocuments]
  ∧ console (env_of r) = console e.
Proof. done. Qed.

(** X9: when the fetch fails the error goes to the console and the
    loading notice is taken down all the same; the documents and the
    selection stay as they were, so right after the mount the page is the
    one of an account without documents. *)
Theorem failed_fetch_shows_an_empty_list error s e :
  let failed := run (fetchDocuments (inl error)) s e in
  documents (state_of failed) = documents s
  ∧ selectedDocument (state_of failed) = selectedDocument s
  ∧ loading (state_of failed) = false
  ∧ console (env_of failed)
    = console e ++ [{| log_message := JS.lit "Error fetching documents:";
                       log_error := error |}]
  ∧ render (state_of (run (fetchDocuments (inl error)) mount e))
    = render (state_of (run (fetchDocuments (inr [])) mount e))
  ∧ render (state_of (run (fetchDocuments (inl error)) mount e))
    = ListView [] SelectPanel.
Proof. done. Qed.

(** X10: a delete that the user declines sends nothing and changes
    nothing; a delete that the endpoint rejects has sent the request and
    logs the error, and leaves the list, the selection and the loading
    flag untouched. *)
Theorem delete_without_effect s i reply error cur e :
  run (handleDelete s i false reply) cur e = (tt, cur, e)
  ∧ state_of (run (handleDelete s i true (inl error)) cur e) = cur
  ∧ network (env_of (run (handleDelete s i true (inl error)) cur e))
    = network e ++ [DeleteDocument i]
  ∧ console (env_of (run (handleDelete s i true (inl error)) cur e))
    = console e ++ [{| log_message := JS.lit "Error deleting document:";
                       log_error := error |}].
Proof. done. Qed.

(** X11: two deletes started from the same page, the second confirmed
    before the first has come back.  Each handler filters the list of the
    render it was created in, so when both have succeeded the list is that
    render's list without the second id only: the document deleted first,
    gone after the first reply, is listed again. *)
Theorem overlapping_deletes_restore_the_first s i j d e :
  d ∈ documents s →
  id d = i →
  i ≠ j →
  let r1 := run (handleDelete s i true (inr tt)) s e in
  let r2 := run (handleDelete s j true (inr tt)) (state_of r1) (env_of r1) in
  (d ∉ documents (state_of r1))
  ∧ documents (state_of r2) = filter (λ doc, id doc ≠ j) (documents s)
  ∧ d ∈ documents (state_of r2)
  ∧ network (env_of r2) = network e ++ [DeleteDocument i; DeleteDocument j].
Proof.
  intros Hd Hi Hij. cbv zeta. rewrite !handleDelete_success. cbn.
  split.
  { rewrite list_elem_of_filter. unfold other_than. tauto. }
  split; [done|]. split.
  - rewrite list_elem_of_filter. unfold other_than. split; [congruence|done].
  - by rewrite <- app_assoc.
Qed.

Lemma overlapping_deletes_restore_the_first_witness :
  let r1 := run (handleDelete Examples.listing 7 true (inr tt))
                Examples.listing Examples.empty_env in
  let r2 := run (handleDelete Examples.listing 9 true (inr tt))
                (state_of r1) (env_of r1) in
(Examples.doc 7 "report.pdf" true) ∈ documents Examples.listing
  ∧ documents (state_of r2)
    = [Examples.doc 7 "report.pdf" true; Examples.doc 8 "notes.txt" false].
Proof.
  cbv zeta.
  assert (Hin : (Examples.doc 7 "report.pdf" true) ∈ documents Examples.listing)
    by (apply list_elem_of_here).
  split; [exact Hin|].
  destruct (overlapping_deletes_restore_the_first Examples.listing 7 9
              (Examples.doc 7 "report.pdf" true) Examples.empty_env Hin eq_refl)
    as (_ & Hlist & _); [discriminate|].
  rewrite Hlist. reflexivity.
Defined.

(** X12: two deletes one after the other, the second started from the page
    as it is after the first.  The list is left without the entries of
    either id, in its old order, whichever of the two is deleted first. *)
Theorem successive_deletes_compose s i j e :
  let first_i := run (handleDelete s i true (inr tt)) s e in
  let then_j := run (handleDelete (state_of first_i) j true (inr tt))
                    (state_of first_i) (env_of first_i) in
  let first_j := run (handleDelete s j true (inr tt)) s e in
  let then_i := run (handleDelete (state_of first_j) i true (inr tt))
                    (state_of first_j) (env_of first_j) in
  documents (state_of then_j)
    = filter (λ doc, id doc ≠ i ∧ id doc ≠ j) (documents s)
  ∧ documents (state_of then_i) = documents (state_of then_j)
  ∧ network (env_of then_j) = network e ++ [DeleteDocument i; DeleteDocument j].
Proof.
  cbv zeta. rewrite !handleDelete_success. cbn.
  split; [|split].
  - rewrite list_filter_filter. apply list_filter_iff.
    intros doc. unfold other_than. tauto.
  - rewrite !list_filter_filter. apply list_filter_iff.
    intros doc. unfold other_than. tauto.
  - by rewrite <- app_assoc.
Qed.

(** X13: a document selected while its delete is still in flight stays
    selected.  The handler tests the selection of the render it was created
    in, so when the reply comes the document leaves the list but the
    right-hand column keeps showing its question form or waiting notice. *)
Theorem selection_during_delete_is_kept s d e :
  d ∈ documents s →
  selected_is (selectedDocument s) (id d) = false →
  let clicked := run (onClick d) s e in
  let r := run (handleDelete s (id d) true (inr tt)) (state_of clicked) (env_of clicked) in
  (d ∉ documents (state_of r))
  ∧ selectedDocument (state_of r) = Some d
  ∧ panel (state_of r)
    = (if processed d
       then QuestionAnswerPanel {| QuestionAnswer.documentId := id d;
                                   QuestionAnswer.documentTitle := title d |}
       else ProcessingPanel (title d)).
Proof.
  intros Hd Hsel. cbv zeta. rewrite handleDelete_success. cbn. rewrite Hsel.
  split; [|done]. rewrite list_elem_of_filter. unfold other_than. tauto.
Qed.

Lemma selection_during_delete_is_kept_witness :
  let d := Examples.doc 7 "report.pdf" true in
  let clicked := run (onClick d) Examples.listing Examples.empty_env in
  let r := run (handleDelete Examples.listing 7 true (inr tt))
               (state_of clicked) (env_of clicked) in
  d ∈ documents Examples.listing
  ∧ selected_is (selectedDocument Examples.listing) (id d) = false
  ∧ selectedDocument (state_of r) = Some d.
Proof.
  cbv zeta. split; [apply list_elem_of_here|]. split; [reflexivity|].
  apply (selection_during_delete_is_kept Examples.listing
           (Examples.doc 7 "report.pdf" true) Examples.empty_env);
    [apply list_elem_of_here|reflexivity].
Defined.

End document_list_life_cycle.

(* ===================================================================== *)
(** * Sessions and routing *)
(* ===================================================================== *)

Section session_facts.
Import AuthContext.

Local Arguments JS.lit : simpl never.

Lemma run_initialize s e :
  run initialize s e =
    match localStorage e !! JS.lit "token" with
    | Some t =>
        if JS.truthy t
        then (tt, {| user := user s; token := Some t; isLoading := false |},
              {| localStorage := localStorage e;
                 headers := <[JS.lit "Authorization" := token_header t]> (headers e);
                 console := console e; network := network e |})
        else (tt, {| user := user s; token := token s; isLoading := false |}, e)
    | None => (tt, {| user := user s; token := token s; isLoading := false |}, e)
    end.
Proof.
  unfold initialize; cbn.
  destruct (localStorage e !! JS.lit "token") as [t|]; cbn; [|done].
  by destruct (JS.truthy t).
Qed.

(** X14: a session survives a reload only in part.  After a successful
    login, opening the page afresh (same localStorage, no header yet)
    restores the token and the Authorization header when the token is a
    non-empty string, but not the user: the dashboard is shown with a
    greeting that has no name.  With an empty token nothing is restored and
    the dashboard sends the visitor to the login page. *)
Theorem reload_restores_token_not_user u p data s e e' key :
  page_load e' →
  localStorage e' = localStorage (env_of (run (login u p (inr data) WriteAccepted) s e)) →
  let reloaded := run initialize mount e' in
  user (state_of reloaded) = None
  ∧ isLoading (state_of reloaded) = false
  ∧ (JS.truthy (data_token data) = true →
       token (state_of reloaded) = Some (data_token data)
       ∧ headers (env_of reloaded) !! JS.lit "Authorization"
         = Some (token_header (data_token data))
       ∧ Dashboard.redirect (state_of reloaded) = None
       ∧ Dashboard.render (state_of reloaded) key
         = Dashboard.PageView None (Dashboard.refreshKey key))
  ∧ (JS.truthy (data_token data) = false →
       token (state_of reloaded) = None
       ∧ headers (env_of reloaded) !! JS.lit "Authorization" = None
       ∧ Dashboard.redirect (state_of reloaded) = Some (JS.lit "/login")).
Proof.
  intros Hfresh Hls. cbv zeta. rewrite run_initialize, Hls.
  destruct (login_established u p data s e) as (_ & _ & -> & _).
  destruct (JS.truthy (data_token data)) eqn:Ht; cbn.
  - split; [done|]. split; [done|]. split; [|done]. intros _.
    split; [done|]. split; [apply lookup_insert_eq|].
    unfold Dashboard.redirect, Dashboard.render; cbn. by rewrite Ht.
  - split; [done|]. split; [done|]. split; [done|]. intros _.
    split; [done|]. split; [exact Hfresh|done].
Qed.

Lemma reload_restores_token_not_user_witness :
  let logged_in := run (login (JS.lit "ada") (JS.lit "secret") (inr Examples.granted) WriteAccepted)
                       mount Examples.empty_env in
  let e' := {| localStorage := localStorage (env_of logged_in); headers := ∅;
               console := []; network := [] |} in
  page_load e'
  ∧ token (state_of (run initialize mount e')) = Some (JS.lit "f00d")
  ∧ user (state_of logged_in)
    = Some {| id := 3; username := JS.lit "ada" |}
  ∧ user (state_of (run initialize mount e')) = None.
Proof.
  cbv zeta.
  destruct (reload_restores_token_not_user (JS.lit "ada") (JS.lit "secret")
              Examples.granted mount Examples.empty_env
              {| localStorage :=
                   localStorage (env_of (run (login (JS.lit "ada") (JS.lit "secret")
                                                (inr Examples.granted) WriteAccepted)
                                             mount Examples.empty_env));
                 headers := ∅; console := []; network := [] |}
              Dashboard.mount (lookup_empty _) eq_refl)
    as (Huser & _ & Htoken & _).
  split; [reflexivity|]. split; [apply Htoken; reflexivity|].
  split; [reflexivity|exact Huser].
Defined.

(** X15: logout sends no request and clears the whole session: the token
    and the user of the context, the stored token and the Authorization
    header.  The dashboard then shows nothing and sends the visitor to the
    login page, and a reload does not bring the session back. *)
Theorem logout_clears_the_session s e e' key :
  isLoading s = false →
  page_load e' →
  localStorage e' = localStorage (env_of (run logout s e)) →
  let r := run logout s e in
  state_of r = {| user := None; token := None; isLoading := false |}
  ∧ localStorage (env_of r) !! JS.lit "token" = None
  ∧ headers (env_of r) !! JS.lit "Authorization" = None
  ∧ network (env_of r) = network e
  ∧ console (env_of r) = console e
  ∧ Dashboard.redirect (state_of r) = Some (JS.lit "/login")
  ∧ Dashboard.render (state_of r) key = Dashboard.NullView
  ∧ token (state_of (run initialize mount e')) = None.
Proof.
  intros Hs Hfresh Hls. cbv zeta. rewrite run_initialize, Hls.
  unfold logout; cbn. rewrite !lookup_delete_eq, Hs. done.
Qed.

Lemma logout_clears_the_session_witness :
  let logged_in := run (login (JS.lit "ada") (JS.lit "secret") (inr Examples.granted) WriteAccepted)
                       (state_of (run initialize mount Examples.returning_visit))
                       (env_of (run initialize mount Examples.returning_visit)) in
  let r := run logout (state_of logged_in) (env_of logged_in) in
  isLoading (state_of logged_in) = false
  ∧ localStorage (env_of r) !! JS.lit "token" = None
  ∧ token (state_of r) = None.
Proof.
  cbv zeta. split; [reflexivity|].
  set (logged_in :=
         run (login (JS.lit "ada") (JS.lit "secret") (inr Examples.granted) WriteAccepted)
             (state_of (run initialize mount Examples.returning_visit))
             (env_of (run initialize mount Examples.returning_visit))).
  destruct (logout_clears_the_session (state_of logged_in) (env_of logged_in)
              {| localStorage :=
                   localStorage (env_of (run logout (state_of logged_in)
                                             (env_of logged_in)));
                 headers := ∅; console := []; network := [] |}
              Dashboard.mount)
    as (Hstate & Hstored & _); [reflexivity|apply lookup_empty|reflexivity|].
  split; [exact Hstored|]. by rewrite Hstate.
Defined.

(** X16: the context keeps to its own keys.  Whatever operation completes
    (login, register or logout, accepted or rejected) and also on the
    mount effect, every localStorage entry other than 'token' and every
    default header other than 'Authorization' is left as it was; the mount
    effect sends no request and writes nothing to localStorage. *)
Theorem auth_touches_only_its_keys op s e k :
  (k ≠ JS.lit "token" →
     localStorage (env_of (run (perform op) s e)) !! k = localStorage e !! k)
  ∧ (k ≠ JS.lit "Authorization" →
     headers (env_of (run (perform op) s e)) !! k = headers e !! k
     ∧ headers (env_of (run initialize s e)) !! k = headers e !! k)
  ∧ localStorage (env_of (run initialize s e)) = localStorage e
  ∧ network (env_of (run initialize s e)) = network e.
Proof.
  split; [|split; [|split]].
  - intros Hk.
    destruct op as [u p [err|data] []|u p m [err|data] []|]; cbn; try done.
    + by rewrite lookup_insert_ne.
    + by rewrite lookup_insert_ne.
    + by rewrite lookup_delete_ne.
  - intros Hk. split.
    + destruct op as [u p [err|data] []|u p m [err|data] []|]; cbn; try done.
      * by rewrite lookup_insert_ne.
      * by rewrite lookup_insert_ne.
      * by rewrite lookup_delete_ne.
    + rewrite run_initialize.
      destruct (localStorage e !! JS.lit "token") as [t|]; [|done].
      destruct (JS.truthy t); [|done]. cbn. by rewrite lookup_insert_ne.
  - rewrite run_initialize.
    destruct (localStorage e !! JS.lit "token") as [t|]; [|done].
    by destruct (JS.truthy t).
  - rewrite run_initialize.
    destruct (localStorage e !! JS.lit "token") as [t|]; [|done].
    by destruct (JS.truthy t).
Qed.

Lemma auth_touches_only_its_keys_witness :
  JS.lit "theme" ≠ JS.lit "token"
  ∧ localStorage (env_of (run (perform OpLogout) mount
                     {| localStorage := {[ JS.lit "theme" := JS.lit "dark" ]};
                        headers := ∅; console := []; network := [] |}))
      !! JS.lit "theme"
    = Some (JS.lit "dark").
Proof.
  split; [discriminate|].
  destruct (auth_touches_only_its_keys OpLogout mount
              {| localStorage := {[ JS.lit "theme" := JS.lit "dark" ]};
                 headers := ∅; console := []; network := [] |} (JS.lit "theme"))
    as (Hls & _).
  rewrite Hls by discriminate. apply lookup_singleton_eq.
Defined.

(** X17: the landing page and the dashboard route by the same test.  While
    the context is loading neither of them redirects and both show the
    loading notice.  Once it is not, a non-empty token sends the landing
    page to the dashboard, which stays and shows the page; no token, or an
    empty one, sends both to the login page and the dashboard renders
    nothing. *)
Theorem routing_follows_the_token auth key :
  (isLoading auth = true →
     Home.redirect auth = None ∧ Dashboard.redirect auth = None
     ∧ Home.render auth = Home.LoadingView
     ∧ Dashboard.render auth key = Dashboard.LoadingView)
  ∧ (isLoading auth = false →
     (JS.truthy_opt (token auth) = true
      ∧ Home.redirect auth = Some (JS.lit "/dashboard")
      ∧ Dashboard.redirect auth = None
      ∧ Dashboard.render auth key
        = Dashboard.PageView (username <$> user auth) (Dashboard.refreshKey key))
     ∨ (JS.truthy_opt (token auth) = false
        ∧ Home.redirect auth = Some (JS.lit "/login")
        ∧ Dashboard.redirect auth = Some (JS.lit "/login")
        ∧ Dashboard.render auth key = Dashboard.NullView)).
Proof.
  unfold Home.redirect, Home.render, Dashboard.redirect, Dashboard.render.
  split; intros ->; cbn; [done|].
  destruct (JS.truthy_opt (token auth)); cbn; [by left|by right].
Qed.

Lemma routing_follows_the_token_witness :
  let auth := state_of (run (login (JS.lit "ada") (JS.lit "secret")
                               (inr Examples.granted) WriteAccepted)
                            (state_of (run initialize mount Examples.empty_env))
                            Examples.empty_env) in
  isLoading auth = false
  ∧ Dashboard.render auth Dashboard.mount
    = Dashboard.PageView (Some (JS.lit "ada")) 0.
Proof.
  cbv zeta. split; [reflexivity|].
  destruct (routing_follows_the_token
              (state_of (run (login (JS.lit "ada") (JS.lit "secret")
                                (inr Examples.granted) WriteAccepted)
                             (state_of (run initialize mount Examples.empty_env))
                             Examples.empty_env))
              Dashboard.mount) as (_ & H).
  destruct (H eq_refl) as [(_ & _ & _ & Hpage)|(Hno & _)].
  - exact Hpage.
  - discriminate Hno.
Defined.

(** X18: once the mount effect has run the context is never loading
    again, whatever is done with it, so from then on the dashboard never
    shows its loading notice and the landing page always redirects. *)
Theorem provider_stays_loaded s e key :
  reachable s e →
  isLoading s = false
  ∧ Dashboard.render s key ≠ Dashboard.LoadingView
  ∧ is_Some (Home.redirect s).
Proof.
  intros Hreach.
  assert (Hl : isLoading s = false).
  { induction Hreach as [e0 _|s e op _ IH].
    - rewrite run_initialize.
      destruct (localStorage e0 !! JS.lit "token") as [t|]; [|done].
      by destruct (JS.truthy t).
    - destruct op as [u p [err|data] []|u p m [err|data] []|]; cbn; done. }
  split; [done|].
  unfold Dashboard.render, Home.redirect. rewrite Hl. cbn.
  split; [by destruct (JS.truthy_opt (token s))|].
  destruct (JS.truthy_opt (token s)); by eexists.
Qed.

Lemma provider_stays_loaded_witness :
  reachable (state_of (run initialize mount Examples.returning_visit))
            (env_of (run initialize mount Examples.returning_visit))
  ∧ isLoading (state_of (run initialize mount Examples.returning_visit)) = false.
Proof.
  assert (H : reachable (state_of (run initialize mount Examples.returning_visit))
                        (env_of (run initialize mount Examples.returning_visit))).
  { apply reach_initialize. reflexivity. }
  split; [exact H|].
  apply (provider_stays_loaded _ _ Dashboard.mount H).
Defined.

End session_facts.

(* ===================================================================== *)
(** * Uploading from the dashboard *)
(* ===================================================================== *)

Section dashboard_facts.
Import Dashboard.

(** X19: on the dashboard, an upload that succeeds raises the key of the
    document list by one, so the list is mounted anew: it shows its loading
    notice, has no document selected, and the fetch that follows fills it
    with the reply.  An upload that fails leaves the key and the list,
    selection included, as they were. *)
Theorem upload_refreshes_the_list t f error data e :
  DocumentUpload.file (upload t) = Some f →
  DocumentUpload.title (upload t) ≠ [] →
  let ok := run (submitUpload (inr tt)) t e in
  let ko := run (submitUpload (inl error)) t e in
  let fetched := run (DocumentList.fetchDocuments (inr data))
                     (list (state_of ok)) (env_of ok) in
  refreshKey (own (state_of ok)) = refreshKey (own t) + 1
  ∧ list (state_of ok) = DocumentList.mount
  ∧ DocumentList.render (list (state_of ok)) = DocumentList.LoadingView
  ∧ DocumentList.documents (state_of fetched) = data
  ∧ DocumentList.selectedDocument (state_of fetched) = None
  ∧ network (env_of fetched)
    = network e ++ [UploadDocument f (DocumentUpload.title (upload t)); ListDocuments]
  ∧ refreshKey (own (state_of ko)) = refreshKey (own t)
  ∧ list (state_of ko) = list t.
Proof.
  intros Hf Ht. cbv zeta. unfold submitUpload; cbn -[DocumentUpload.handleSubmit].
  rewrite !(handleSubmit_upload (upload t) f) by done. cbn.
  unfold keyed.
  rewrite bool_decide_eq_false_2 by lia. rewrite bool_decide_eq_true_2 by done.
  cbn. split; [done|]. split; [done|]. split; [done|]. split; [done|].
  split; [done|]. split; [by rewrite <- app_assoc|done].
Qed.

Lemma upload_refreshes_the_list_witness :
  let t := {| own := mount; upload := Examples.filled_form; list := Examples.listing |} in
  DocumentUpload.title (upload t) ≠ []
  ∧ list (state_of (run (submitUpload (inr tt)) t Examples.empty_env))
    = DocumentList.mount
  ∧ list (state_of (run (submitUpload (inl NetworkError)) t Examples.empty_env))
    = Examples.listing.
Proof.
  cbv zeta.
  destruct (upload_refreshes_the_list
              {| own := mount; upload := Examples.filled_form; list := Examples.listing |}
              {| file_name := JS.lit "report.pdf"; file_content := JS.lit "%PDF-1.7" |}
              NetworkError [] Examples.empty_env)
    as (_ & Hok & _ & _ & _ & _ & _ & Hko); [reflexivity|discriminate|].
  split; [discriminate|]. split; [exact Hok|exact Hko].
Defined.

(** The submission without a file, on the dashboard: nothing moves. *)
Lemma incomplete_upload_keeps_the_list t reply e :
  DocumentUpload.file (upload t) = None →
  run (submitUpload reply) t e
  = (tt, {| own := own t; upload := upload t; list := list t |}, e).
Proof.
  intros Hf. unfold submitUpload; cbn -[DocumentUpload.handleSubmit].
  unfold DocumentUpload.handleSubmit. rewrite Hf. cbn.
  unfold keyed. rewrite bool_decide_eq_true_2 by done. by destruct (own t).
Qed.

End dashboard_facts.

(* ===================================================================== *)
(** * Events that overlap *)
(* ===================================================================== *)

Section overlapping_events.
Import DocumentList.

(** C6 does not hold of the code once something else happens between the
    click on Delete and the reply: [handleDelete] filters the list and
    tests the selection of the render it was created in, not the current
    ones.  On the page listing documents 7, 8 and 9 with 8 selected:
    - deleting 7 and, before the reply, 9: after both replies the list is
      7, 8; the deleted 7 is back, where the list before the second reply
      (8, 9) without 9 would be 8 alone;
    - clicking row 7 while its delete is in flight: 7 leaves the list and
      stays selected;
    - clicking row 9 while the delete of the selected 8 is in flight: the
      selection of 9 is cleared although 9 was not deleted. *)
Theorem delete_on_a_busy_page_breaks_the_frame :
  let s := Examples.listing in
  let d7 := Examples.doc 7 "report.pdf" true in
  let d9 := Examples.doc 9 "draft.txt" true in
  let first := run (handleDelete s 7 true (inr tt)) s Examples.empty_env in
  let second := run (handleDelete s 9 true (inr tt)) (state_of first) (env_of first) in
  let clicked := run (onClick d7) s Examples.empty_env in
  let gone := run (handleDelete s 7 true (inr tt)) (state_of clicked) (env_of clicked) in
  let moved := run (onClick d9) s Examples.empty_env in
  let cleared := run (handleDelete s 8 true (inr tt)) (state_of moved) (env_of moved) in
  map id (documents s) = [7; 8; 9]
  ∧ map id (documents (state_of first)) = [8; 9]
  ∧ map id (documents (state_of second)) = [7; 8]
  ∧ network (env_of second) = [DeleteDocument 7; DeleteDocument 9]
  ∧ map id (documents (state_of gone)) = [8; 9]
  ∧ selectedDocument (state_of gone) = Some d7
  ∧ selectedDocument (state_of moved) = Some d9
  ∧ map id (documents (state_of cleared)) = [7; 9]
  ∧ selectedDocument (state_of cleared) = None.
Proof. cbv zeta. repeat split; reflexivity. Qed.

End overlapping_events.

(* ===================================================================== *)
(** * The question form across selections *)
(* ===================================================================== *)

Section list_page_facts.
Import ListPage.

Lemma form_props_selected (s : DocumentList.State) d :
  DocumentList.loading s = false →
  DocumentList.selectedDocument s = Some d →
  form_props s
  = if DocumentList.processed d
    then Some {| QuestionAnswer.documentId := DocumentList.id d;
                 QuestionAnswer.documentTitle := DocumentList.title d |}
    else None.
Proof.
  intros Hl Hs. unfold form_props, DocumentList.render, DocumentList.panel.
  rewrite Hl, Hs. by destruct (DocumentList.processed d).
Qed.

(** Going from one processed document to another keeps the instance: the
    form changes its title and nothing else. *)
Lemma selecting_a_processed_document_keeps_the_form t d instance e :
  DocumentList.loading (documentList t) = false →
  questionAnswer t = Some instance →
  DocumentList.processed d = true →
  questionAnswer (state_of (run (select d) t e)) = Some instance
  ∧ view (state_of (run (select d) t e))
    = Some (QuestionAnswer.render
              {| QuestionAnswer.documentId := DocumentList.id d;
                 QuestionAnswer.documentTitle := DocumentList.title d |} instance).
Proof.
  intros Hl Hi Hd. unfold select, in_list, view; cbn.
  rewrite (form_props_selected _ d) by done. rewrite Hd, Hi. done.
Qed.

(** Coming from the prompt or a waiting notice mounts the form anew. *)
Lemma selecting_without_a_form_mounts_one t d e :
  DocumentList.loading (documentList t) = false →
  questionAnswer t = None →
  DocumentList.processed d = true →
  questionAnswer (state_of (run (select d) t e)) = Some QuestionAnswer.mount.
Proof.
  intros Hl Hi Hd. unfold select, in_list; cbn.
  rewrite (form_props_selected _ d) by done. by rewrite Hd, Hi.
Qed.

(** C8 does not hold of the code for its own example, selecting a
    different document.  On the page listing the processed documents 7
    and 9 and the unprocessed 8: selecting 7 mounts an empty form, and a
    question asked there is answered and shown.  Selecting 9 next keeps
    the instance, since the element has no key: the form is now titled
    'draft.txt' and still shows the exchange about 'report.pdf'.  Only a
    selection that takes the form off the page in between (here row 8,
    which is still processing) gives an empty history on 9. *)
Theorem history_is_carried_to_the_next_document :
  let d7 := Examples.doc 7 "report.pdf" true in
  let d8 := Examples.doc 8 "notes.txt" false in
  let d9 := Examples.doc 9 "draft.txt" true in
  let exchange :=
    {| QuestionAnswer.shown_question := JS.lit "Who wrote it?";
       QuestionAnswer.shown_answer := JS.lit "Ada";
       QuestionAnswer.shown_time := 1000 |} in
  let start := {| documentList := Examples.listing; questionAnswer := None |} in
  let on7 := run (select d7) start Examples.empty_env in
  let asked := run (ask Examples.who_wrote_it) (state_of on7) (env_of on7) in
  let on9 := run (select d9) (state_of asked) (env_of asked) in
  let via8 := run (select d8) (state_of asked) (env_of asked) in
  let back_on9 := run (select d9) (state_of via8) (env_of via8) in
  view start = None
  ∧ view (state_of on7) = Some (QuestionAnswer.render Examples.props7 QuestionAnswer.mount)
  ∧ network (env_of asked) = [AskQuestion 7 (JS.lit "Who wrote it?")]
  ∧ QuestionAnswer.exchanges <$> view (state_of asked) = Some [exchange]
  ∧ QuestionAnswer.heading_title <$> view (state_of on9) = Some (JS.lit "draft.txt")
  ∧ QuestionAnswer.exchanges <$> view (state_of on9) = Some [exchange]
  ∧ view (state_of via8) = None
  ∧ QuestionAnswer.heading_title <$> view (state_of back_on9) = Some (JS.lit "draft.txt")
  ∧ QuestionAnswer.exchanges <$> view (state_of back_on9) = Some [].
Proof. cbv zeta. repeat split; reflexivity. Qed.

End list_page_facts.
